(** * Austin 911 dashboard: district summary, chart builders and page controller

    Shallow embedding of [austin_911_dashboard.py].

    Tables are lists of records, one record per row, in row order.  A Call
    Record carries every attribute of the processed CSV (no empty cells), so
    the null-skipping of the dataframe library is not modelled.  Numeric
    columns are exact rationals kept in lowest terms: the binary rounding of
    float64 sums, products and quotients is abstracted away.  [.round(2)] is modelled
    on the exact value: the result is a hundredth within 1/200 of it.  At an
    exact decimal tie (57.5 hundredths) the model takes the even neighbour,
    where the float64 code takes the neighbour its binary value falls to;
    the properties below rely on the hundredth and on the distance only,
    apart from the worked examples, which are away from ties. *)

From Stdlib Require Import QArith Qround Qreduction String Lqa.
From stdpp Require Import list sorting gmap.

Local Open Scope Z_scope.

(** ** Numbers *)

#[global] Instance Qle_dec (x y : Q) : Decision (x <= y)%Q.
Proof.
  destruct (Qle_bool x y) eqn:E.
  - left. by apply Qle_bool_iff.
  - right. intros H. apply Qle_bool_iff in H. congruence.
Defined.

(** [numpy.rint]: nearest integer, ties to the even neighbour. *)
Definition rint (x : Q) : Z :=
  let n := Qfloor x in
  match (x - inject_Z n ?= 1 # 2)%Q with
  | Lt => n
  | Gt => n + 1
  | Eq => if Z.even n then n else n + 1
  end.

(** [numpy.round(x, 2)]: scale by 100, [rint], scale back.  Off the decimal
    ties this is the value the float64 code shows; see [rounds_to_2] for
    what holds of both. *)
Definition round2 (x : Q) : Q := Qred (inject_Z (rint (x * 100)) / 100).

Definition Qsum (l : list Q) : Q := foldr Qplus 0%Q l.

(** Mean of a non-empty column: sum over count. *)
Definition mean (l : list Q) : Q :=
  Qred (Qsum l / inject_Z (Z.of_nat (length l))).

(** Mean of a whole Series: NaN ([None]) on an empty one. *)
Definition series_mean (l : list Q) : option Q :=
  match l with
  | [] => None
  | _ => Some (mean l)
  end.

(** Median: middle of the sorted values, or the mean of the two middle ones. *)
Definition median (l : list Q) : Q :=
  let s := merge_sort Qle l in
  let n := length l in
  if Nat.even n
  then Qred ((nth (n / 2 - 1) s 0%Q + nth (n / 2) s 0%Q) / 2)
  else nth (n / 2) s 0%Q.

Definition bool_to_Q (b : bool) : Q := if b then 1%Q else 0%Q.

(** ** Call records and the district summary *)

Module Call.
Record t := mk {
  council_district : Z;
  response_time_sec : Q;
  response_time_min : Q;
  delayed : bool;
  is_hotspot : bool
}.
End Call.

Abbreviation call_table := (list Call.t).

(** [df.groupby('council_district')]: the distinct keys in ascending order,
    each with its rows in table order. *)
Definition group_keys (df : call_table) : list Z :=
  merge_sort Z.le (remove_dups (Call.council_district <$> df)).

Definition group_rows (k : Z) (df : call_table) : call_table :=
  filter (λ c, Call.council_district c = k) df.

Definition groupby (df : call_table) : list (Z * call_table) :=
  (λ k, (k, group_rows k df)) <$> group_keys df.

(** One row of the aggregated frame, columns in the order of the rename at
    lines 76-79; [council_district] is the group key moved back to a column
    by [reset_index]. *)
Module Agg.
Record t := mk {
  council_district : Z;
  avg_response_sec : Q;
  median_response_sec : Q;
  total_calls : Z;
  avg_response_min : Q;
  total_delayed : Z;
  delay_rate : Q;
  is_hotspot : bool
}.
End Agg.

(** ['first'] of a group; a group of [groupby] is never empty. *)
Definition first_hotspot (g : call_table) : bool :=
  match g with
  | c :: _ => Call.is_hotspot c
  | [] => false
  end.

Definition count_true (l : list bool) : Z :=
  Z.of_nat (length (filter (λ b, b = true) l)).

Definition agg (kg : Z * call_table) : Agg.t :=
  let '(k, g) := kg in
  {| Agg.council_district := k;
     Agg.avg_response_sec := mean (Call.response_time_sec <$> g);
     Agg.median_response_sec := median (Call.response_time_sec <$> g);
     Agg.total_calls := Z.of_nat (length (Call.response_time_sec <$> g));
     Agg.avg_response_min := mean (Call.response_time_min <$> g);
     Agg.total_delayed := count_true (Call.delayed <$> g);
     Agg.delay_rate := mean (bool_to_Q ∘ Call.delayed <$> g);
     Agg.is_hotspot := first_hotspot g |}.

(** [DataFrame.round(2)]: float columns are rounded, integer and boolean
    columns are left as they are. *)
Definition round_row (a : Agg.t) : Agg.t :=
  {| Agg.council_district := Agg.council_district a;
     Agg.avg_response_sec := round2 (Agg.avg_response_sec a);
     Agg.median_response_sec := round2 (Agg.median_response_sec a);
     Agg.total_calls := Agg.total_calls a;
     Agg.avg_response_min := round2 (Agg.avg_response_min a);
     Agg.total_delayed := Agg.total_delayed a;
     Agg.delay_rate := round2 (Agg.delay_rate a);
     Agg.is_hotspot := Agg.is_hotspot a |}.

Module Summary.
Record t := mk {
  council_district : Z;
  avg_response_sec : Q;
  median_response_sec : Q;
  total_calls : Z;
  avg_response_min : Q;
  total_delayed : Z;
  delay_rate : Q;
  is_hotspot : bool;
  delay_percentage : Q
}.
End Summary.

Abbreviation district_summary := (list Summary.t).

(** Line 81: the derived column is computed from the stored [delay_rate]. *)
Definition add_delay_percentage (a : Agg.t) : Summary.t :=
  {| Summary.council_district := Agg.council_district a;
     Summary.avg_response_sec := Agg.avg_response_sec a;
     Summary.median_response_sec := Agg.median_response_sec a;
     Summary.total_calls := Agg.total_calls a;
     Summary.avg_response_min := Agg.avg_response_min a;
     Summary.total_delayed := Agg.total_delayed a;
     Summary.delay_rate := Agg.delay_rate a;
     Summary.is_hotspot := Agg.is_hotspot a;
     Summary.delay_percentage := Qred (Agg.delay_rate a * 100) |}.

Definition create_district_summary (df : call_table) : district_summary :=
  add_delay_percentage <$> (round_row <$> (agg <$> groupby df)).

(** ** Chart builders *)

(** [sort_values('avg_response_min')], ascending or descending. *)
Definition by_avg_response_min : relation Summary.t :=
  λ r1 r2, (Summary.avg_response_min r1 <= Summary.avg_response_min r2)%Q.

#[global] Instance by_avg_response_min_dec r1 r2 :
  Decision (by_avg_response_min r1 r2).
Proof. unfold by_avg_response_min. apply _. Defined.

Definition sort_values_avg_response_min (ascending : bool)
    (s : district_summary) : district_summary :=
  if ascending
  then merge_sort by_avg_response_min s
  else merge_sort (flip by_avg_response_min) s.

(** The chart description returned by [px.bar] with [color='is_hotspot']:
    one trace per value of the colour column, in order of first appearance
    in the frame, each holding the marks of its rows in frame order; the
    axis and legend titles are taken from [labels]. *)
Record bar := mk_bar {
  bar_x : Z;
  bar_y : Q;
  bar_color : string
}.

Record bar_trace := mk_bar_trace {
  trace_name : bool;
  trace_bars : list bar
}.

Record bar_figure := mk_bar_figure {
  bar_traces : list bar_trace;
  bar_title : string;
  bar_labels : list (string * string);
  bar_legend_title : option string;
  bar_height : option Z;
  bar_showlegend : option bool;
  bar_xaxis_title : option string;
  bar_yaxis_title : option string
}.

(** The marks of a figure, trace after trace. *)
Definition bars (fig : bar_figure) : list bar :=
  mjoin (trace_bars <$> bar_traces fig).

(** [color_discrete_map={True: '#d62728', False: '#1f77b4'}] *)
Definition color_discrete_map (hot : bool) : string :=
  if hot then "#d62728"%string else "#1f77b4"%string.

Definition bar_of_row (r : Summary.t) : bar :=
  {| bar_x := Summary.council_district r;
     bar_y := Summary.avg_response_min r;
     bar_color := color_discrete_map (Summary.is_hotspot r) |}.

(** The distinct values of a column in order of first appearance. *)
Fixpoint unique {A} `{EqDecision A} (l : list A) : list A :=
  match l with
  | [] => []
  | x :: l' => x :: filter (λ y, y ≠ x) (unique l')
  end.

Definition px_bar (frame : district_summary) (title : string) : bar_figure :=
  {| bar_traces :=
       (λ v, {| trace_name := v;
                trace_bars :=
                  bar_of_row <$> filter (λ r, Summary.is_hotspot r = v) frame |})
         <$> unique (Summary.is_hotspot <$> frame);
     bar_title := title;
     bar_labels :=
       [("council_district", "Council District");
        ("avg_response_min", "Average Response Time (minutes)");
        ("is_hotspot", "Hotspot Status")]%string;
     bar_legend_title := Some "Hotspot Status"%string;
     bar_height := None;
     bar_showlegend := None;
     bar_xaxis_title := Some "Council District"%string;
     bar_yaxis_title := Some "Average Response Time (minutes)"%string |}.

(** The boundaries argument is accepted and ignored. *)
Definition create_choropleth_map (s : district_summary) (austin_gdf : option unit)
    : bar_figure :=
  let fig :=
    px_bar (sort_values_avg_response_min true s)
      "Average Response Time by Council District (Hotspots in Red)" in
  {| bar_traces := bar_traces fig;
     bar_title := bar_title fig; bar_labels := bar_labels fig;
     bar_legend_title := bar_legend_title fig;
     bar_height := Some 600;
     bar_showlegend := bar_showlegend fig;
     bar_xaxis_title := bar_xaxis_title fig;
     bar_yaxis_title := bar_yaxis_title fig |}.

Definition create_district_bar_chart (s : district_summary) : bar_figure :=
  let fig :=
    px_bar (sort_values_avg_response_min true s)
      "Average Response Time by Council District" in
  {| bar_traces := bar_traces fig;
     bar_title := bar_title fig; bar_labels := bar_labels fig;
     bar_legend_title := bar_legend_title fig;
     bar_height := Some 500;
     bar_showlegend := Some true;
     bar_xaxis_title := Some "Council District"%string;
     bar_yaxis_title := Some "Average Response Time (minutes)"%string |}.

(** ** Anomaly records and the heatmap *)

Module Anomaly.
Record t := mk {
  district : Z;
  hour : Z;
  delay_rate : Q;
  avg_response_min : Q
}.
End Anomaly.

Abbreviation anomaly_table := (list Anomaly.t).

(** The rows of one (district, hour) slice. *)
Definition slice (d h : Z) (a : anomaly_table) : anomaly_table :=
  filter (λ r, Anomaly.district r = d ∧ Anomaly.hour r = h) a.

(** One cell of [pivot_table(..., values='delay_rate', fill_value=0)]: the
    default aggregation is the mean of the slice; an empty slice is filled. *)
Definition pivot_cell (a : anomaly_table) (d h : Z) : Q :=
  match slice d h a with
  | [] => 0%Q
  | g => mean (Anomaly.delay_rate <$> g)
  end.

Record pivot := mk_pivot {
  pivot_index : list Z;
  pivot_columns : list Z;
  pivot_values : list (list Q)
}.

Definition pivot_table (a : anomaly_table) : pivot :=
  let idx := merge_sort Z.le (remove_dups (Anomaly.district <$> a)) in
  let cols := merge_sort Z.le (remove_dups (Anomaly.hour <$> a)) in
  {| pivot_index := idx;
     pivot_columns := cols;
     pivot_values := (λ d, pivot_cell a d <$> cols) <$> idx |}.

(** Position of a label on an axis. *)
Definition label_pos (k : Z) (axis : list Z) : option nat :=
  fst <$> list_find (λ x, x = k) axis.

(** [heatmap_data.loc[d, h]]: [None] when a label is not on its axis. *)
Definition pivot_loc (p : pivot) (d h : Z) : option Q :=
  i ← label_pos d (pivot_index p);
  j ← label_pos h (pivot_columns p);
  row ← pivot_values p !! i;
  row !! j.

Record heatmap_figure := mk_heatmap_figure {
  heat_data : pivot;
  heat_labels : list (string * string);
  heat_title : string;
  heat_color_scale : string;
  heat_height : Z
}.

Definition create_anomaly_heatmap (dbscan_anomalies : anomaly_table)
    : heatmap_figure :=
  let heatmap_data := pivot_table dbscan_anomalies in
  {| heat_data := heatmap_data;
     heat_labels :=
       [("x", "Hour of Day"); ("y", "District"); ("color", "Delay Rate")]%string;
     heat_title := "Anomalous Response Patterns by District and Hour";
     heat_color_scale := "Reds";
     heat_height := 400 |}.

(** ** The anomaly summary *)

(** A row of a table the code only displays, as a dict of named numbers. *)
Abbreviation dict_row := (list (string * Q)).

Module Details.
Record t := mk {
  anomalous_hours : Z;
  avg_response : Q;
  avg_delay_rate : Q;
  worst_hours : list dict_row
}.
End Details.

Module AnomalySummary.
Record t := mk {
  district_rankings : list dict_row;
  top_3_districts : list Z;
  detailed_analysis : gmap Z Details.t
}.
End AnomalySummary.

(** [pd.DataFrame(rows).empty]: no row, or no column in any row. *)
Definition frame_empty (rows : list dict_row) : bool :=
  forallb (λ r, match r with [] => true | _ => false end) rows.

(** ** The data loader *)

(** What sits at a path: nothing, a file the reader rejects, or a file that
    loads to a value. *)
Inductive artifact (A : Type) :=
  | Absent
  | Unreadable
  | Holds (a : A).
Arguments Absent {A}.
Arguments Unreadable {A}.
Arguments Holds {A} a.

Definition exists_path {A} (f : artifact A) : bool :=
  match f with
  | Absent => false
  | _ => true
  end.

(** The four paths the loader touches.  A readable archive holds what its
    extraction leaves at the CSV path.  A readable pickle holds any object:
    the summary structure, or [None]. *)
Record filesystem := mk_filesystem {
  processed_csv_zip : artifact (artifact call_table);
  processed_csv : artifact call_table;
  dbscan_anomalies_csv : artifact anomaly_table;
  anomaly_summary_pkl : artifact (option AnomalySummary.t)
}.

(** The exceptions of the [try] block.  Only a missing file is reported
    with its path; the message of a parser or of the unpickler does not
    name the file. *)
Inductive load_exception :=
  | BadZipFile
  | FileNotFound (path : string)
  | ParseError
  | UnpicklingError.

(** Opening and reading the file at [path]; [rejected] is what the reader
    raises on a file it cannot read. *)
Definition read {A} (path : string) (rejected : load_exception)
    (f : artifact A) : load_exception + A :=
  match f with
  | Absent => inl (FileNotFound path)
  | Unreadable => inl rejected
  | Holds a => inr a
  end.

(** Lines 43-44: extract the archive when it is there and the CSV is not. *)
Definition extract_if_needed (fs : filesystem) : load_exception + filesystem :=
  if exists_path (processed_csv_zip fs) && negb (exists_path (processed_csv fs))
  then
    match processed_csv_zip fs with
    | Holds content =>
        inr {| processed_csv_zip := processed_csv_zip fs;
               processed_csv := content;
               dbscan_anomalies_csv := dbscan_anomalies_csv fs;
               anomaly_summary_pkl := anomaly_summary_pkl fs |}
    | _ => inl BadZipFile
    end
  else inr fs.

(** Raising stops the block: the rest is skipped. *)
#[global] Instance raise_bind {E} : MBind (sum E) := λ A B k m,
  match m with
  | inl e => inl e
  | inr a => k a
  end.

(** The body of the [try] block, lines 40-57.  What [pickle.load] returns
    is passed on as it is. *)
Definition try_load (fs : filesystem)
    : load_exception + (call_table * anomaly_table * option AnomalySummary.t) :=
  fs' ← extract_if_needed fs;
  df ← read "APD_911_Final_Processed.csv" ParseError (processed_csv fs');
  dbscan_anomalies ←
    read "DBSCAN_Anomalies.csv" ParseError (dbscan_anomalies_csv fs');
  anomaly_summary ←
    read "anomaly_summary.pkl" UnpicklingError (anomaly_summary_pkl fs');
  inr (df, dbscan_anomalies, anomaly_summary).

(** ** The page: what one run of [main] emits *)

(** The functions of this file whose calls are recorded. *)
Inductive func :=
  | f_load_data
  | f_load_austin_districts
  | f_create_district_summary
  | f_create_choropleth_map
  | f_create_district_bar_chart
  | f_create_anomaly_heatmap.

Inductive tab := tab1 | tab2.

Inductive container :=
  | page
  | sidebar
  | in_tab (t : tab)
  | in_column (t : tab) (i : nat)
  | in_expander (district : Z)
  | in_expander_column (district : Z) (i : nat).

(** The values interpolated for one district of the key findings. *)
Record narration := mk_narration {
  n_council_district : Z;
  n_avg_response_min : Q;
  n_delay_percentage : Q
}.

(** Texts: fixed strings, or a template with the values it interpolates. *)
Inductive text :=
  | Static (s : string)
  | ErrorLoadingData (e : load_exception)
  | DataSummary (total_calls districts : Z)
  | KeyFindings (slowest fastest : narration) (hotspot_districts : list Z)
      (impact : Q)
  | DistrictExpanderTitle (district : Z)
  | MLInsights (primary_hotspot : option Z) (top_district : Z)
      (top_delay_rate : Q)
  | LastUpdated (now : string).

(** A formatted metric value; [None] under [Fixed1] is NaN. *)
Inductive shown :=
  | Thousands (n : Z)
  | Plain (n : Z)
  | Fixed1 (x : option Q) (suffix : string)
  | Percent1 (x : Q).

Definition display_row := (Z * Q * Q * Z * bool)%type.

Inductive element :=
  | markdown (t : text)
  | error (t : text)
  | header (s : string)
  | subheader (s : string)
  | info (t : text)
  | warning (s : string)
  | metric (label : string) (v : shown)
  | plotly_chart (fig : bar_figure)
  | plotly_heatmap (fig : heatmap_figure)
  | dataframe (rows : list display_row)
  | dataframe_dicts (rows : list dict_row)
  | expander (title : text) (expanded : bool).

Inductive event :=
  | emit (c : container) (e : element)
  | tabs (labels : list string)
  | columns (c : container) (widths : list Z)
  | invoke (f : func).

(** [KeyErrorColumns] is the [KeyError] of indexing a frame with a mask
    that is not boolean. *)
Inductive exception :=
  | ValueError
  | KeyError (k : Z)
  | KeyErrorColumns
  | IndexError.

(** A run emits events in order and either finishes with a value or stops at
    an uncaught exception. *)
Definition render (A : Type) : Type := (list event * (exception + A))%type.

#[global] Instance render_ret : MRet render := λ A a, ([], inr a).

#[global] Instance render_bind : MBind render := λ A B k m,
  match m with
  | (t, inl e) => (t, inl e)
  | (t, inr a) => let '(t', r) := k a in (t ++ t', r)
  end.

Definition st (c : container) (e : element) : render unit :=
  ([emit c e], inr tt).

Definition log (ev : event) : render unit := ([ev], inr tt).

Definition raise {A} (e : exception) : render A := ([], inl e).

Definition trace {A} (r : render A) : list event := fst r.

(** [load_data], lines 36-60.  The cached result is computed once per
    process; one run is modelled. *)
Definition load_data (fs : filesystem)
    : render (option call_table * option anomaly_table * option AnomalySummary.t) :=
  match try_load fs with
  | inr (df, dbscan_anomalies, anomaly_summary) =>
      mret (Some df, Some dbscan_anomalies, anomaly_summary)
  | inl e =>
      st page (error (ErrorLoadingData e));;
      mret (None, None, None)
  end.

Definition load_austin_districts : option unit := None.

(** A Figure object is truthy. *)
Definition figure_truthy (fig : bar_figure) : bool := true.

(** [Series.idxmax] / [idxmin]: position of the first extreme value. *)
Fixpoint first_best (better : Q → Q → bool) (l : list Q) (i best_i : nat)
    (best : Q) : nat :=
  match l with
  | [] => best_i
  | y :: l' =>
      if better y best
      then first_best better l' (S i) i y
      else first_best better l' (S i) best_i best
  end.

Definition Qlt_bool (x y : Q) : bool := negb (Qle_bool y x).

Definition idxmax (l : list Q) : render nat :=
  match l with
  | [] => raise ValueError
  | x :: l' => mret (first_best (λ y m, Qlt_bool m y) l' 1 0 x)
  end.

Definition idxmin (l : list Q) : render nat :=
  match l with
  | [] => raise ValueError
  | x :: l' => mret (first_best (λ y m, Qlt_bool y m) l' 1 0 x)
  end.

(** [district_summary.loc[i]] on the default integer index. *)
Definition loc (s : district_summary) (i : nat) : render Summary.t :=
  match s !! i with
  | Some r => mret r
  | None => raise (KeyError (Z.of_nat i))
  end.

Definition narrate (r : Summary.t) : narration :=
  {| n_council_district := Summary.council_district r;
     n_avg_response_min := Summary.avg_response_min r;
     n_delay_percentage := Summary.delay_percentage r |}.

Definition display (r : Summary.t) : display_row :=
  (Summary.council_district r, Summary.avg_response_min r,
   Summary.delay_percentage r, Summary.total_calls r, Summary.is_hotspot r).

(** Lines 180-183: the four scalars of the first tab. *)
Definition total_calls (df : call_table) : Z := Z.of_nat (length df).

Definition avg_response (s : district_summary) : option Q :=
  series_mean (Summary.avg_response_min <$> s).

Definition hotspot_districts (s : district_summary) : list Z :=
  Summary.council_district <$> filter (λ r, Summary.is_hotspot r = true) s.

Definition overall_delay_rate (df : call_table) : option Q :=
  (λ m, Qred (m * 100)) <$> series_mean (bool_to_Q ∘ Call.delayed <$> df).

Definition nunique (l : list Z) : Z := Z.of_nat (length (remove_dups l)).

Local Open Scope string_scope.

(** Line 182: the summary indexed by its [is_hotspot] column.  The column
    of an empty summary is not boolean, and indexing with it raises. *)
Definition select_hotspots (s : district_summary) : render (list Z) :=
  match s with
  | [] => raise KeyErrorColumns
  | _ => mret (hotspot_districts s)
  end.

(** Lines 177-188: the four scalars are computed, then the tiles are
    filled. *)
Definition render_key_metrics (df : call_table) (s : district_summary)
    : render unit :=
  log (columns (in_tab tab1) [1; 1; 1; 1]);;
  hotspots ← select_hotspots s;
  st (in_column tab1 1) (metric "Total Calls" (Thousands (total_calls df)));;
  st (in_column tab1 2)
    (metric "Avg Response Time" (Fixed1 (avg_response s) " min"));;
  st (in_column tab1 3)
    (metric "Hotspot Districts" (Plain (Z.of_nat (length hotspots))));;
  st (in_column tab1 4)
    (metric "Overall Delay Rate" (Fixed1 (overall_delay_rate df) "%")).

(** Lines 192-202: the chart shown in place of the map. *)
Definition render_choropleth (s : district_summary) (austin_gdf : option unit)
    : render unit :=
  st (in_tab tab1) (subheader "Response Time Choropleth Map");;
  log (invoke f_create_choropleth_map);;
  let choropleth_fig := create_choropleth_map s austin_gdf in
  if figure_truthy choropleth_fig
  then st (in_tab tab1) (plotly_chart choropleth_fig)
  else
    st (in_tab tab1)
      (warning "Choropleth map unavailable. Showing bar chart instead.");;
    log (invoke f_create_district_bar_chart);;
    st (in_tab tab1) (plotly_chart (create_district_bar_chart s)).

(** Lines 204-217: the table, slowest district first. *)
Definition render_district_table (s : district_summary) : render unit :=
  log (columns (in_tab tab1) [2; 1]);;
  st (in_column tab1 1) (subheader "District Performance Summary");;
  st (in_column tab1 1)
    (dataframe (display <$> sort_values_avg_response_min false s)).

(** Lines 219-238: the narration of the slowest and the fastest district. *)
Definition render_key_findings (s : district_summary) : render unit :=
  st (in_column tab1 2) (subheader "Key Findings");;
  i_max ← idxmax (Summary.avg_response_min <$> s);
  slowest_district ← loc s i_max;
  i_min ← idxmin (Summary.avg_response_min <$> s);
  fastest_district ← loc s i_min;
  st (in_column tab1 2)
    (markdown
       (KeyFindings (narrate slowest_district) (narrate fastest_district)
          (hotspot_districts s)
          (Qred (Summary.avg_response_min slowest_district
                 - Summary.avg_response_min fastest_district)))).

(** Lines 173-238. *)
Definition render_tab1 (df : call_table) (s : district_summary)
    (austin_gdf : option unit) : render unit :=
  st (in_tab tab1) (header "Percentile-Based Hotspot Analysis");;
  st (in_tab tab1) (markdown (Static
    "*Identifying consistently problematic districts using 90th percentile threshold*"));;
  render_key_metrics df s;;
  st (in_tab tab1) (markdown (Static "---"));;
  render_choropleth s austin_gdf;;
  render_district_table s;;
  render_key_findings s.

(** [anomaly_summary['detailed_analysis'][district_id]] *)
Definition details_of (a : AnomalySummary.t) (district_id : Z)
    : render Details.t :=
  match AnomalySummary.detailed_analysis a !! district_id with
  | Some d => mret d
  | None => raise (KeyError district_id)
  end.

(** One turn of the loop at lines 285-303. *)
Definition render_district (a : AnomalySummary.t) (i : nat) (district_id : Z)
    : render unit :=
  st (in_tab tab2)
    (expander (DistrictExpanderTitle district_id) (bool_decide (i = 0%nat)));;
  details ← details_of a district_id;
  log (columns (in_expander district_id) [1; 1; 1]);;
  st (in_expander_column district_id 1)
    (metric "Anomalous Hours" (Plain (Details.anomalous_hours details)));;
  st (in_expander_column district_id 2)
    (metric "Avg Response Time"
       (Fixed1 (Some (Details.avg_response details)) " min"));;
  st (in_expander_column district_id 3)
    (metric "Avg Delay Rate" (Percent1 (Details.avg_delay_rate details)));;
  st (in_expander district_id) (markdown (Static "**Worst Performing Hours:**"));;
  if frame_empty (Details.worst_hours details)
  then mret tt
  else st (in_expander district_id)
         (dataframe_dicts (Details.worst_hours details)).

Fixpoint for_enumerate (body : nat → Z → render unit) (i : nat) (l : list Z)
    : render unit :=
  match l with
  | [] => mret tt
  | x :: l' => body i x;; for_enumerate body (S i) l'
  end.

(** Lines 248-321: the second tab once the anomaly data is there. *)
Definition render_tab2 (dbscan_anomalies : anomaly_table)
    (anomaly_summary : AnomalySummary.t) (hotspots : list Z) : render unit :=
  log (columns (in_tab tab2) [1; 1; 1; 1]);;
  st (in_column tab2 1)
    (metric "Anomalous Patterns"
       (Plain (Z.of_nat (length dbscan_anomalies))));;
  st (in_column tab2 2)
    (metric "Affected Districts"
       (Plain (nunique (Anomaly.district <$> dbscan_anomalies))));;
  st (in_column tab2 3)
    (metric "Avg Anomaly Response"
       (Fixed1 (series_mean (Anomaly.avg_response_min <$> dbscan_anomalies))
          " min"));;
  st (in_column tab2 4)
    (metric "Avg Anomaly Delay Rate"
       (Fixed1 ((λ m, Qred (m * 100)) <$>
                  series_mean (Anomaly.delay_rate <$> dbscan_anomalies)) "%"));;
  st (in_tab tab2) (markdown (Static "---"));;
  log (columns (in_tab tab2) [1; 1]);;
  st (in_column tab2 1) (subheader "Most Anomalous Districts");;
  st (in_column tab2 1)
    (dataframe_dicts (AnomalySummary.district_rankings anomaly_summary));;
  st (in_column tab2 2) (subheader "Anomaly Patterns Heatmap");;
  log (invoke f_create_anomaly_heatmap);;
  st (in_column tab2 2)
    (plotly_heatmap (create_anomaly_heatmap dbscan_anomalies));;
  st (in_tab tab2) (subheader "Detailed District Analysis");;
  let top_3_districts := AnomalySummary.top_3_districts anomaly_summary in
  for_enumerate (render_district anomaly_summary) 0 top_3_districts;;
  st (in_tab tab2) (subheader "ML Insights vs Percentile Analysis");;
  match top_3_districts with
  | [] => raise IndexError
  | top :: _ =>
      details ← details_of anomaly_summary top;
      st (in_tab tab2)
        (markdown (MLInsights (head hotspots) top
                     (Details.avg_delay_rate details)))
  end.

(** Lines 323-326. *)
Definition render_footer (now : string) : render unit :=
  st page (markdown (Static "---"));;
  st page (markdown (LastUpdated now));;
  st page
    (markdown (Static
       "**Data Source:** Austin Police Department Calls for Service (2019-2024)")).

Definition anomaly_data_unavailable : text :=
  Static "ML anomaly data not available.".

(** Lines 163-326: the page once the call records are there.  The [return]
    at line 246 leaves [main], so nothing after the guard is emitted. *)
Definition render_dashboard (df : call_table)
    (dbscan_anomalies : option anomaly_table)
    (anomaly_summary : option AnomalySummary.t)
    (austin_gdf : option unit) (now : string) : render unit :=
  st sidebar (header "Dashboard Controls");;
  st sidebar
    (info (DataSummary (Z.of_nat (length df))
             (nunique (Call.council_district <$> df))));;
  log (invoke f_create_district_summary);;
  let s := create_district_summary df in
  log (tabs ["Percentile-Based Hotspots"; "ML Anomaly Detection"]);;
  render_tab1 df s austin_gdf;;
  st (in_tab tab2) (header "ML-Based Anomaly Detection");;
  st (in_tab tab2)
    (markdown (Static "*DBSCAN clustering identifies unusual operational patterns*"));;
  match dbscan_anomalies, anomaly_summary with
  | Some a, Some sm =>
      render_tab2 a sm (hotspot_districts s);;
      render_footer now
  | _, _ => st (in_tab tab2) (error anomaly_data_unavailable)
  end.

(** Lines 151-153. *)
Definition render_header : render unit :=
  st page
    (markdown (Static
       "<h1 class='main-header'>Austin 911 Emergency Response Analysis</h1>"));;
  st page
    (markdown (Static
       "*Spatiotemporal analysis of emergency response times across Austin council districts*"));;
  st page (markdown (Static "---")).

Definition unable_to_load : text :=
  Static
    "Unable to load data files. Please ensure all required files are in the correct directory.".

(** Lines 157-326: [main] from the point where [load_data] has returned. *)
Definition main_after_load
    (loaded : option call_table * option anomaly_table
              * option AnomalySummary.t)
    (now : string) : render unit :=
  let '(df, dbscan_anomalies, anomaly_summary) := loaded in
  log (invoke f_load_austin_districts);;
  let austin_gdf := load_austin_districts in
  match df with
  | None => st page (error unable_to_load)
  | Some df =>
      render_dashboard df dbscan_anomalies anomaly_summary austin_gdf now
  end.

(** [main], lines 149-326; [now] is the wall clock read by the footer. *)
Definition main (fs : filesystem) (now : string) : render unit :=
  render_header;;
  log (invoke f_load_data);;
  loaded ← load_data fs;
  main_after_load loaded now.

Local Close Scope string_scope.

(** ** Vocabulary of the properties *)

(** The summary row of one district. *)
Definition summary_row (d : Z) (df : call_table) : Summary.t :=
  add_delay_percentage (round_row (agg (d, group_rows d df))).

(** Row counts of the input, as the claims word them. *)
Definition calls_in (d : Z) (df : call_table) : nat :=
  length (filter (λ c, Call.council_district c = d) df).

Definition delayed_in (d : Z) (df : call_table) : nat :=
  length (filter (λ c, Call.council_district c = d ∧ Call.delayed c = true) df).

(** *** Observations on a run *)

#[global] Instance func_eq_dec : EqDecision func.
Proof. solve_decision. Defined.

#[global] Instance tab_eq_dec : EqDecision tab.
Proof. solve_decision. Defined.

(** The messages of the error indications, in order of emission. *)
Definition errors (t : list event) : list text :=
  omap (λ ev, match ev with emit _ (error m) => Some m | _ => None end) t.

Definition invoked (f : func) (t : list event) : bool :=
  existsb (λ ev, match ev with invoke g => bool_decide (g = f) | _ => false end) t.

Definition tabs_rendered (t : list event) : bool :=
  existsb (λ ev, match ev with tabs _ => true | _ => false end) t.

Definition container_tab (c : container) : option tab :=
  match c with
  | in_tab tb | in_column tb _ => Some tb
  | in_expander _ | in_expander_column _ _ => Some tab2
  | page | sidebar => None
  end.

(** Something other than an error was put into the tab. *)
Definition tab_content (tb : tab) (t : list event) : bool :=
  existsb (λ ev, match ev with
                 | emit c (error _) => false
                 | emit c _ => bool_decide (container_tab c = Some tb)
                 | _ => false
                 end) t.

Definition footer_rendered (t : list event) : bool :=
  existsb (λ ev, match ev with
                 | emit page (markdown (LastUpdated _)) => true
                 | _ => false
                 end) t.

Definition loads {A} (f : artifact A) : Prop := ∃ a, f = Holds a.

Definition returned {A} (r : render A) : option A :=
  match snd r with
  | inr a => Some a
  | inl _ => None
  end.

(** The metric tiles of a run, in order of emission. *)
Definition metrics (t : list event) : list (container * string * shown) :=
  omap (λ ev, match ev with
              | emit c (metric l v) => Some (c, l, v)
              | _ => None
              end) t.

(** *** Example inputs *)

Definition one_call : call_table :=
  [Call.mk 1 (300 # 1) (5 # 1) false false].

Definition some_summary : AnomalySummary.t :=
  AnomalySummary.mk [] [] ∅.

Definition no_files : filesystem :=
  mk_filesystem Absent Absent Absent Absent.

Definition anomalies_missing : filesystem :=
  mk_filesystem Absent (Holds one_call) Absent (Holds (Some some_summary)).

Definition ten_calls : call_table :=
  [Call.mk 1 300 5 true false; Call.mk 2 120 2 false false;
   Call.mk 1 600 10 true false; Call.mk 1 60 1 false false;
   Call.mk 2 180 3 false false; Call.mk 1 900 15 true false;
   Call.mk 1 90 (3 # 2) false false; Call.mk 2 60 1 false false;
   Call.mk 1 30 (1 # 2) false false; Call.mk 2 240 4 false false].

Definition three_calls : call_table :=
  [Call.mk 7 300 5 true false; Call.mk 7 120 2 false false;
   Call.mk 7 60 1 false false].

Definition two_anomalies : anomaly_table :=
  [Anomaly.mk 1 3 (1 # 2) 10; Anomaly.mk 2 4 (1 # 4) 12].

Definition all_files : filesystem :=
  mk_filesystem Absent (Holds three_calls) (Holds two_anomalies)
    (Holds (Some some_summary)).

(** *** Vocabulary of the further properties *)

Definition Zsum (l : list Z) : Z := foldr Z.add 0 l.

(** [b] at position [bi] is the first best value of [pre]: nothing in [pre]
    is better, and [b] is better than everything before it. *)
Definition first_best_at (better : Q → Q → bool) (pre : list Q) (bi : nat)
    (b : Q) : Prop :=
  pre !! bi = Some b
  ∧ (∀ k z, pre !! k = Some z → better z b = false)
  ∧ (∀ k z, (k < bi)%nat → pre !! k = Some z → better b z = true).

(** The [avg_response_min] column of the displayed table. *)
Definition row_avg_response_min (r : display_row) : Q :=
  let '(_, avg, _, _, _) := r in avg.

(** The expanders of a run: district and whether it starts expanded. *)
Definition expanders (t : list event) : list (Z * bool) :=
  omap (λ ev, match ev with
              | emit _ (expander (DistrictExpanderTitle d) b) => Some (d, b)
              | _ => None
              end) t.

(** The first listed district that has no entry in the detailed analysis. *)
Definition first_without_details (sm : AnomalySummary.t) : option Z :=
  snd <$> list_find (λ d, AnomalySummary.detailed_analysis sm !! d = None)
            (AnomalySummary.top_3_districts sm).

(** An event of the body of a tab: not put on the page or the sidebar, not
    an error indication and not the creation of the tabs. *)
Definition in_tabs (ev : event) : Prop :=
  match ev with
  | emit page _ | emit sidebar _ => False
  | emit _ (error _) => False
  | tabs _ => False
  | _ => True
  end.

(** *** Further example inputs *)

Definition full_summary : AnomalySummary.t :=
  AnomalySummary.mk []
    [2; 1; 3]
    {[ 1 := Details.mk 2 10 (1 # 2) [];
       2 := Details.mk 5 12 (3 # 4) [[("hour"%string, 3%Q)]];
       3 := Details.mk 1 8 (1 # 4) [] ]}.

Definition complete_files : filesystem :=
  mk_filesystem Absent (Holds ten_calls) (Holds two_anomalies)
    (Holds (Some full_summary)).

Definition archive_files : filesystem :=
  mk_filesystem (Holds (Holds three_calls)) Absent (Holds two_anomalies)
    (Holds (Some full_summary)).

Definition unreadable_archive_files : filesystem :=
  mk_filesystem Unreadable (Holds three_calls) (Holds two_anomalies)
    (Holds (Some some_summary)).

Definition empty_table_files : filesystem :=
  mk_filesystem Absent (Holds []) (Holds two_anomalies)
    (Holds (Some full_summary)).

(** The pickle holds [None]. *)
Definition pickled_none_files : filesystem :=
  mk_filesystem Absent (Holds three_calls) (Holds two_anomalies) (Holds None).

(** Three districts: the middle one, by response time, is the hotspot. *)
Definition hotspot_between : call_table :=
  [Call.mk 1 180 3 false false; Call.mk 2 300 5 true true;
   Call.mk 3 420 7 true false].

(** [y] is [x] rounded to two decimals: a hundredth within 1/200 of [x]. *)
Definition rounds_to_2 (x y : Q) : Prop :=
  (∃ k : Z, y == inject_Z k / 100)%Q ∧ (- (1 # 200) <= y - x <= 1 # 200)%Q.

(** * Properties *)

(** ** Order on rationals *)

#[global] Instance Qle_trans_inst : Transitive Qle.
Proof. intros x y z. apply Qle_trans. Qed.

#[global] Instance Qle_total_inst : Total Qle.
Proof.
  intros x y. destruct (Qlt_le_dec x y) as [H|H]; [left|right]; auto.
  by apply Qlt_le_weak.
Qed.

(** ** Sorted distinct labels *)

Section sorted_distinct.
Implicit Types (l : list Z) (x : Z).

Lemma elem_of_sorted_distinct l x :
  x ∈ merge_sort Z.le (remove_dups l) ↔ x ∈ l.
Proof. by rewrite merge_sort_Permutation, elem_of_remove_dups. Qed.

Lemma NoDup_sorted_distinct l : NoDup (merge_sort Z.le (remove_dups l)).
Proof. rewrite merge_sort_Permutation. apply NoDup_remove_dups. Qed.

Lemma Sorted_sorted_distinct l :
  StronglySorted Z.le (merge_sort Z.le (remove_dups l)).
Proof. apply StronglySorted_merge_sort; apply _. Qed.

Lemma length_sorted_distinct l :
  length (merge_sort Z.le (remove_dups l)) = size (list_to_set l : gset Z).
Proof.
  rewrite merge_sort_Permutation.
  rewrite <- (size_list_to_set (C:=gset Z)) by apply NoDup_remove_dups.
  f_equal. apply set_eq. intros x.
  by rewrite !elem_of_list_to_set, elem_of_remove_dups.
Qed.

(** A sorted list without duplicates is determined by its elements. *)
Lemma sorted_distinct_unique l (k : list Z) :
  StronglySorted Z.le k → NoDup k → (∀ x, x ∈ k ↔ x ∈ l) →
  merge_sort Z.le (remove_dups l) = k.
Proof.
  intros Hs Hn He.
  apply (StronglySorted_unique Z.le); [apply Sorted_sorted_distinct|done|].
  apply NoDup_Permutation; [apply NoDup_sorted_distinct|done|].
  intros x. by rewrite elem_of_sorted_distinct, He.
Qed.
End sorted_distinct.

(** ** The district summary, row by row *)

Lemma create_district_summary_rows df :
  create_district_summary df = (λ d, summary_row d df) <$> group_keys df.
Proof.
  unfold create_district_summary, groupby.
  rewrite <- !list_fmap_compose. done.
Qed.

Lemma summary_districts df :
  Summary.council_district <$> create_district_summary df = group_keys df.
Proof.
  rewrite create_district_summary_rows, <- list_fmap_compose.
  rewrite <- (list_fmap_id (group_keys df)) at 2. by apply list_fmap_ext.
Qed.

Lemma elem_of_summary df r :
  r ∈ create_district_summary df ↔
  ∃ d, r = summary_row d df ∧ d ∈ Call.council_district <$> df.
Proof.
  rewrite create_district_summary_rows, list_elem_of_fmap.
  unfold group_keys. by setoid_rewrite elem_of_sorted_distinct.
Qed.

Lemma length_summary df :
  length (create_district_summary df)
  = size (list_to_set (Call.council_district <$> df) : gset Z).
Proof.
  rewrite create_district_summary_rows, length_fmap.
  apply length_sorted_distinct.
Qed.

(** Sum of an indicator column is the number of flagged rows. *)
Lemma Qsum_indicator (g : call_table) :
  (Qsum (bool_to_Q ∘ Call.delayed <$> g)
   == inject_Z (count_true (Call.delayed <$> g)))%Q.
Proof.
  unfold count_true. induction g as [|c g IH]; [reflexivity|].
  cbn [fmap list_fmap Qsum foldr]. fold (Qsum (bool_to_Q ∘ Call.delayed <$> g)).
  rewrite IH. unfold compose at 1.
  destruct (Call.delayed c) eqn:E; cbn [bool_to_Q].
  - rewrite filter_cons_True by done. cbn [length].
    rewrite Nat2Z.inj_succ, <- Z.add_1_l, inject_Z_plus. reflexivity.
  - rewrite filter_cons_False by done. ring.
Qed.

(** The delay rate of a group with [n] rows of which [k] are delayed. *)
Lemma delay_rate_of_counts d df (n k : Z) :
  Z.of_nat (length (group_rows d df)) = n →
  count_true (Call.delayed <$> group_rows d df) = k →
  Summary.delay_rate (summary_row d df) = round2 (Qred (inject_Z k / inject_Z n)).
Proof.
  intros Hn Hk. unfold summary_row. cbn. f_equal. unfold mean.
  apply Qred_complete. rewrite Qsum_indicator, length_fmap, Hn, Hk. reflexivity.
Qed.

Lemma count_true_delayed d df :
  count_true (Call.delayed <$> group_rows d df) = Z.of_nat (delayed_in d df).
Proof.
  unfold count_true, delayed_in, group_rows. f_equal.
  induction df as [|c df IH]; [done|].
  rewrite !filter_cons.
  destruct (decide (Call.council_district c = d)) as [E|E].
  - rewrite fmap_cons, filter_cons.
    destruct (decide (Call.delayed c = true)) as [Ed|Ed].
    + rewrite decide_True by done. cbn [length]. by f_equal.
    + rewrite decide_False by tauto. done.
  - rewrite decide_False by tauto. done.
Qed.

Lemma total_calls_summary_row d df :
  Summary.total_calls (summary_row d df) = Z.of_nat (calls_in d df).
Proof. unfold summary_row, calls_in. cbn. by rewrite length_fmap. Qed.

Lemma calls_in_pos d df : (0 < calls_in d df)%nat → d ∈ Call.council_district <$> df.
Proof.
  unfold calls_in. intros H.
  destruct (filter _ df) as [|c g] eqn:E; [cbn in H; lia|].
  assert (c ∈ filter (λ c, Call.council_district c = d) df) as Hc
    by (rewrite E; left).
  apply list_elem_of_filter in Hc as [<- Hc]. by apply list_elem_of_fmap_2.
Qed.

Section two_groups.
Context {A} (P Q : A → Prop) `{∀ x, Decision (P x), ∀ x, Decision (Q x)}.
Hypothesis disjoint : ∀ x, P x → Q x → False.

Lemma length_filter_disjoint (l : list A) :
  (length (filter P l) + length (filter Q l) ≤ length l)%nat.
Proof using disjoint.
  induction l as [|x l IH]; [done|].
  destruct (decide (P x)), (decide (Q x));
    rewrite ?(filter_cons_True P), ?(filter_cons_False P),
            ?(filter_cons_True Q), ?(filter_cons_False Q) by done;
    cbn [length]; [exfalso; eauto|lia..].
Qed.

Lemma filter_disjoint_cover (l : list A) :
  (length (filter P l) + length (filter Q l) = length l)%nat →
  ∀ x, x ∈ l → P x ∨ Q x.
Proof using disjoint.
  induction l as [|x l IH]; intros Hl y Hy; [by apply elem_of_nil in Hy|].
  pose proof (length_filter_disjoint l) as Hle.
  destruct (decide (P x)), (decide (Q x));
    rewrite ?(filter_cons_True P), ?(filter_cons_False P),
            ?(filter_cons_True Q), ?(filter_cons_False Q) in Hl by done;
    cbn [length] in Hl; try lia; try (exfalso; eauto; fail);
    apply elem_of_cons in Hy as [->|Hy]; auto; apply IH; auto; lia.
Qed.
End two_groups.

(** C1: [create_district_summary] returns one row per distinct
    [council_district] of the input, and each row's [total_calls] is the
    number of input rows of that row's district.  In particular, every
    table of 10 calls with 6 calls in district 1 (3 delayed) and 4 calls in
    district 2 (none delayed) yields the rows (1, total_calls 6, delay_rate
    0.5, delay_percentage 50) and (2, 4, 0, 0). *)
Theorem C1_district_summary_counts :
  (∀ df : call_table,
     length (create_district_summary df)
     = size (list_to_set (Call.council_district <$> df) : gset Z)
     ∧ NoDup (Summary.council_district <$> create_district_summary df)
     ∧ (∀ d, d ∈ Summary.council_district <$> create_district_summary df
             ↔ d ∈ Call.council_district <$> df)
     ∧ (∀ r, r ∈ create_district_summary df →
          Summary.total_calls r
          = Z.of_nat (calls_in (Summary.council_district r) df)))
  ∧ (∀ df : call_table,
       length df = 10%nat →
       calls_in 1 df = 6%nat → delayed_in 1 df = 3%nat →
       calls_in 2 df = 4%nat → delayed_in 2 df = 0%nat →
       (λ r, (Summary.council_district r, Summary.total_calls r,
              Summary.delay_rate r, Summary.delay_percentage r))
         <$> create_district_summary df
       = [(1, 6, 1 # 2, 50%Q); (2, 4, 0%Q, 0%Q)]).
Proof.
  split.
  - intros df. split; [apply length_summary|].
    rewrite summary_districts. unfold group_keys.
    split; [apply NoDup_sorted_distinct|].
    split; [intros d; apply elem_of_sorted_distinct|].
    intros r [d [-> _]]%elem_of_summary.
    by rewrite total_calls_summary_row.
  - intros df Hlen H1 Hd1 H2 Hd2.
    assert (group_keys df = [1; 2]) as Hkeys.
    { apply sorted_distinct_unique.
      - repeat constructor; lia.
      - apply NoDup_cons; split; [|apply NoDup_singleton].
        intros ?%list_elem_of_singleton. lia.
      - intros x. split.
        + intros Hx. apply elem_of_cons in Hx as [->|Hx];
            [|apply list_elem_of_singleton in Hx as ->];
            apply calls_in_pos; lia.
        + intros (c & -> & Hc)%list_elem_of_fmap.
          assert (∀ c : Call.t, Call.council_district c = 1 →
                    Call.council_district c = 2 → False) as Hdis by (intros; lia).
          assert (calls_in 1 df + calls_in 2 df = length df)%nat as Hcover
            by lia.
          destruct (filter_disjoint_cover _ _ Hdis df Hcover c Hc) as [E|E];
            rewrite E; [left|right; left]. }
    rewrite create_district_summary_rows, Hkeys. cbn [fmap list_fmap].
    rewrite !total_calls_summary_row, H1, H2.
    assert (∀ d, Summary.delay_percentage (summary_row d df)
                 = Qred (Summary.delay_rate (summary_row d df) * 100)) as Hp
      by done.
    rewrite !Hp.
    rewrite (delay_rate_of_counts 1 df 6 3), (delay_rate_of_counts 2 df 4 0);
      rewrite ?count_true_delayed; unfold calls_in, group_rows in *; try lia.
    reflexivity.
Qed.

(** ** Rounding to two decimals *)

Lemma rint_near (x : Q) : (- (1 # 2) <= inject_Z (rint x) - x <= 1 # 2)%Q.
Proof.
  unfold rint. pose proof (Qfloor_le x) as Hlo. pose proof (Qlt_floor x) as Hhi.
  rewrite inject_Z_plus in Hhi. change (inject_Z 1) with 1%Q in Hhi.
  destruct (x - inject_Z (Qfloor x) ?= 1 # 2)%Q eqn:E.
  - apply Qeq_alt in E. destruct (Z.even (Qfloor x));
      rewrite ?inject_Z_plus; change (inject_Z 1) with 1%Q; lra.
  - apply Qlt_alt in E. lra.
  - apply Qgt_alt in E. rewrite inject_Z_plus.
    change (inject_Z 1) with 1%Q. lra.
Qed.

Lemma round2_hundredths (x : Q) :
  (round2 x == inject_Z (rint (x * 100)) / 100)%Q.
Proof. unfold round2. apply Qred_correct. Qed.

Lemma round2_near (x : Q) : (- (1 # 200) <= round2 x - x <= 1 # 200)%Q.
Proof.
  rewrite round2_hundredths. pose proof (rint_near (x * 100)) as H.
  unfold Qdiv. set (k := inject_Z (rint (x * 100))) in *.
  assert (/ 100 == 1 # 100)%Q as -> by reflexivity. lra.
Qed.

(** C2: in every row of the District Summary, [delay_percentage] is the
    row's [delay_rate] multiplied by 100. *)
Theorem C2_delay_percentage_is_rate_times_100 (df : call_table) :
  Forall (λ r, (Summary.delay_percentage r == Summary.delay_rate r * 100)%Q)
    (create_district_summary df).
Proof.
  apply Forall_forall. intros r [d [-> _]]%elem_of_summary.
  unfold summary_row. cbn. apply Qred_correct.
Qed.

Lemma round2_rounds (x : Q) : rounds_to_2 x (round2 x).
Proof.
  split; [|apply round2_near].
  exists (rint (x * 100)). apply round2_hundredths.
Qed.

(** C10: every aggregated float column of the District Summary holds the
    aggregate of the district's rows rounded to two decimals (a hundredth
    within 1/200 of the exact value), and [delay_percentage] is derived from
    the rounded delay rate; with 1 delayed call out of 3 it is 33, not
    100/3. *)
Theorem C10_rounded_before_percentage :
  (∀ df : call_table,
     Forall (λ r,
        let d := Summary.council_district r in
        let g := group_rows d df in
        rounds_to_2 (mean (Call.response_time_sec <$> g))
          (Summary.avg_response_sec r)
        ∧ rounds_to_2 (median (Call.response_time_sec <$> g))
            (Summary.median_response_sec r)
        ∧ rounds_to_2 (mean (Call.response_time_min <$> g))
            (Summary.avg_response_min r)
        ∧ rounds_to_2 (inject_Z (Z.of_nat (delayed_in d df))
                       / inject_Z (Z.of_nat (calls_in d df)))
            (Summary.delay_rate r)
        ∧ (Summary.delay_percentage r == Summary.delay_rate r * 100)%Q)
       (create_district_summary df))
  ∧ (∀ (df : call_table) (d : Z),
       calls_in d df = 3%nat → delayed_in d df = 1%nat →
       ∃ r, r ∈ create_district_summary df
            ∧ Summary.council_district r = d
            ∧ Summary.delay_rate r = (33 # 100)%Q
            ∧ Summary.delay_percentage r = 33%Q
            ∧ ¬ (Summary.delay_percentage r == (1 # 3) * 100)%Q).
Proof.
  split.
  - intros df. apply Forall_forall. intros r [d [-> _]]%elem_of_summary.
    assert (Summary.delay_rate (summary_row d df)
            = round2 (Qred (inject_Z (Z.of_nat (delayed_in d df))
                            / inject_Z (Z.of_nat (calls_in d df))))) as Hrate.
    { apply delay_rate_of_counts; [done|apply count_true_delayed]. }
    assert (Summary.delay_percentage (summary_row d df)
            == Summary.delay_rate (summary_row d df) * 100)%Q as Hpct.
    { change (Summary.delay_percentage (summary_row d df))
        with (Qred (Summary.delay_rate (summary_row d df) * 100)).
      apply Qred_correct. }
    change (Summary.council_district (summary_row d df)) with d. cbn zeta.
    split; [apply round2_rounds|]. split; [apply round2_rounds|].
    split; [apply round2_rounds|].
    pose proof (round2_rounds (Qred (inject_Z (Z.of_nat (delayed_in d df))
                                     / inject_Z (Z.of_nat (calls_in d df)))))
      as [[k Hk] Hnear].
    rewrite <- Hrate in Hk, Hnear. rewrite Qred_correct in Hnear.
    split; [split; [by exists k|done]|]. done.
  - intros df d Hn Hk. exists (summary_row d df).
    assert (Summary.delay_rate (summary_row d df) = (33 # 100)%Q) as Hrate.
    { rewrite (delay_rate_of_counts d df 3 1);
        rewrite ?count_true_delayed; unfold calls_in, group_rows in *;
        [reflexivity|lia..]. }
    assert (Summary.delay_percentage (summary_row d df) = 33%Q) as Hp.
    { change (Summary.delay_percentage (summary_row d df))
        with (Qred (Summary.delay_rate (summary_row d df) * 100)).
      by rewrite Hrate. }
    split; [|split; [done|split; [done|split; [done|]]]].
    + apply elem_of_summary. exists d. split; [done|].
      apply calls_in_pos. lia.
    + rewrite Hp. intros H. discriminate H.
Qed.

(** ** The bar charts *)

#[global] Instance by_avg_response_min_trans : Transitive by_avg_response_min.
Proof. intros x y z. unfold by_avg_response_min. apply Qle_trans. Qed.

#[global] Instance by_avg_response_min_total : Total by_avg_response_min.
Proof. intros x y. unfold by_avg_response_min. apply Qle_total_inst. Qed.

Section unique_spec.
Context {A : Type} `{EqDecision A}.
Implicit Types (l : list A) (x : A).

Lemma elem_of_unique l x : x ∈ unique l ↔ x ∈ l.
Proof.
  induction l as [|y l IH]; [done|]. cbn [unique].
  rewrite !elem_of_cons, list_elem_of_filter, IH.
  destruct (decide (x = y)); tauto.
Qed.

Lemma NoDup_unique l : NoDup (unique l).
Proof.
  induction l as [|y l IH]; [constructor|]. cbn [unique].
  apply NoDup_cons. split; [|by apply NoDup_filter].
  rewrite list_elem_of_filter. tauto.
Qed.
End unique_spec.

Lemma join_cons {A} (l : list A) (ls : list (list A)) :
  mjoin (l :: ls) = l ++ mjoin ls.
Proof. done. Qed.

(** Splitting a list by key over a duplicate-free list of keys that covers
    it rearranges the list. *)
Lemma grouped_Permutation {A K} `{EqDecision K} (key : A → K) (ks : list K)
    (l : list A) :
  NoDup ks → (∀ x, x ∈ l → key x ∈ ks) →
  mjoin ((λ k, filter (λ x, key x = k) l) <$> ks) ≡ₚ l.
Proof.
  intros Hn. revert l. induction Hn as [|k ks Hk Hn IH]; intros l Hcov.
  - destruct l as [|x l]; [done|].
    specialize (Hcov x ltac:(left)). by apply elem_of_nil in Hcov.
  - rewrite fmap_cons, join_cons.
    etrans; [|apply (filter_app_complement (λ x, key x = k) l)].
    apply Permutation_app; [done|].
    rewrite <- (IH (filter (λ x, ¬ key x = k) l)).
    + apply reflexive_eq. f_equal. apply list_fmap_ext.
      intros _ k' Hk'%list_elem_of_lookup_2.
      rewrite list_filter_filter. apply list_filter_iff.
      intros x. split; [|tauto]. intros ->. split; [done|]. by intros ->.
    + intros x [Hx Hin]%list_elem_of_filter.
      specialize (Hcov x Hin). apply elem_of_cons in Hcov as [?|?]; done.
Qed.

Lemma bars_px_bar (frame : district_summary) (title : string) :
  bars (px_bar frame title)
  = bar_of_row
      <$> mjoin ((λ v, filter (λ r, Summary.is_hotspot r = v) frame)
                   <$> unique (Summary.is_hotspot <$> frame)).
Proof.
  unfold bars, px_bar. cbn [bar_traces].
  rewrite <- list_fmap_compose.
  induction (unique (Summary.is_hotspot <$> frame)) as [|v vs IH]; [done|].
  rewrite !fmap_cons, !join_cons, fmap_app. by rewrite IH.
Qed.

Lemma bars_px_bar_Permutation (frame : district_summary) (title : string) :
  bars (px_bar frame title) ≡ₚ bar_of_row <$> frame.
Proof.
  rewrite bars_px_bar. apply fmap_Permutation.
  apply (grouped_Permutation Summary.is_hotspot).
  - apply NoDup_unique.
  - intros r Hr. apply elem_of_unique. by apply list_elem_of_fmap_2.
Qed.

Lemma bars_bar_chart s :
  bars (create_district_bar_chart s) ≡ₚ bar_of_row <$> s.
Proof.
  change (bars (create_district_bar_chart s))
    with (bars (px_bar (sort_values_avg_response_min true s)
                  "Average Response Time by Council District")).
  rewrite bars_px_bar_Permutation. unfold sort_values_avg_response_min.
  by rewrite (merge_sort_Permutation by_avg_response_min s).
Qed.

Lemma bars_choropleth s gdf :
  bars (create_choropleth_map s gdf) = bars (create_district_bar_chart s).
Proof. done. Qed.

Lemma StronglySorted_filter {A} (R : relation A) (P : A → Prop)
    `{∀ x, Decision (P x)} (l : list A) :
  StronglySorted R l → StronglySorted R (filter P l).
Proof.
  induction 1 as [|x l Hs IH Hx]; [constructor|].
  rewrite filter_cons. destruct (decide (P x)); [|done].
  constructor; [done|]. apply Forall_forall. intros y [_ Hy]%list_elem_of_filter.
  rewrite Forall_forall in Hx. by apply Hx.
Qed.

(** C8 fails on the code: the frame is sorted by [avg_response_min], but
    the chart builder then groups the rows by the colour column, one trace
    per value, so the bars of the figure are in ascending order within each
    colour only.  With a hotspot of average 5 between two other districts
    of averages 3 and 7 the bars come out as 3, 7, 5.  The rest of the
    claim holds: one bar per row of the summary (hence one per district),
    of height the row's [avg_response_min] and of colour [#d62728] for a
    hotspot and [#1f77b4] otherwise. *)
Theorem C8_bar_chart_bars :
  (let fig :=
     create_district_bar_chart (create_district_summary hotspot_between) in
   bar_y <$> bars fig = [3; 7; 5]%Q
   ∧ ¬ StronglySorted Qle (bar_y <$> bars fig))
  ∧ (∀ s : district_summary,
       let fig := create_district_bar_chart s in
       (λ b, (bar_x b, bar_y b, bar_color b)) <$> bars fig
         ≡ₚ (λ r, (Summary.council_district r, Summary.avg_response_min r,
                   if Summary.is_hotspot r then "#d62728"%string
                   else "#1f77b4"%string)) <$> s
       ∧ NoDup (trace_name <$> bar_traces fig)
       ∧ Forall (λ t, StronglySorted Qle (bar_y <$> trace_bars t)
                      ∧ Forall (λ b, bar_color b
                                     = if trace_name t then "#d62728"%string
                                       else "#1f77b4"%string)
                          (trace_bars t))
           (bar_traces fig)
       ∧ ∀ gdf, bars (create_choropleth_map s gdf) = bars fig)
  ∧ (∀ df : call_table,
       let fig := create_district_bar_chart (create_district_summary df) in
       NoDup (bar_x <$> bars fig)
       ∧ ∀ d, d ∈ bar_x <$> bars fig ↔ d ∈ Call.council_district <$> df).
Proof.
  split; [|split].
  - cbv zeta. split; [by vm_compute|].
    assert (bar_y <$> bars (create_district_bar_chart
                              (create_district_summary hotspot_between))
            = [3; 7; 5]%Q) as -> by (by vm_compute).
    intros Hs. apply StronglySorted_inv in Hs as [Hs _].
    apply StronglySorted_inv in Hs as [_ H75].
    apply Forall_cons in H75 as [H75 _]. by vm_compute in H75.
  - intros s fig. subst fig. split; [|split; [|split; [|done]]].
    + rewrite bars_bar_chart, <- list_fmap_compose.
      apply reflexive_eq, list_fmap_ext. intros _ r _. cbn.
      by destruct (Summary.is_hotspot r).
    + cbn [create_district_bar_chart px_bar bar_traces].
      rewrite <- list_fmap_compose.
      rewrite (list_fmap_ext _ id); [|done]. rewrite list_fmap_id.
      apply NoDup_unique.
    + cbn [create_district_bar_chart px_bar bar_traces].
      apply Forall_fmap, Forall_forall. intros v _. cbn. split.
      * rewrite <- list_fmap_compose.
        apply (StronglySorted_fmap _ by_avg_response_min); [done|].
        apply StronglySorted_filter.
        apply StronglySorted_merge_sort; apply _.
      * apply Forall_fmap, Forall_forall.
        intros r [Hr _]%list_elem_of_filter. cbn. by rewrite Hr.
  - intros df fig. subst fig.
    assert (bar_x <$> bars (create_district_bar_chart
                              (create_district_summary df))
            ≡ₚ group_keys df) as Hp.
    { rewrite bars_bar_chart, <- list_fmap_compose.
      rewrite <- summary_districts. apply reflexive_eq, list_fmap_ext. done. }
    split; [rewrite Hp; apply NoDup_sorted_distinct|].
    intros d. rewrite Hp. apply elem_of_sorted_distinct.
Qed.

(** ** The heatmap pivot *)

Lemma label_pos_Some (k : Z) (axis : list Z) :
  k ∈ axis → ∃ i, label_pos k axis = Some i ∧ axis !! i = Some k.
Proof.
  intros Hk. unfold label_pos.
  destruct (list_find_elem_of (λ x, x = k) axis k Hk eq_refl) as [[i x] Hf].
  rewrite Hf. exists i. split; [done|].
  apply list_find_Some in Hf as (Hi & -> & _). done.
Qed.

Lemma label_pos_None (k : Z) (axis : list Z) :
  k ∉ axis → label_pos k axis = None.
Proof.
  intros Hk. unfold label_pos.
  assert (list_find (λ x, x = k) axis = None) as ->; [|done].
  apply list_find_None, Forall_forall. by intros x Hx ->.
Qed.

(** Reading the pivot by labels gives the cell of that pair, on the grid of
    observed districts and observed hours and nowhere else. *)
Lemma pivot_loc_table (a : anomaly_table) (d h : Z) :
  pivot_loc (pivot_table a) d h =
  if decide (d ∈ Anomaly.district <$> a ∧ h ∈ Anomaly.hour <$> a)
  then Some (pivot_cell a d h) else None.
Proof.
  unfold pivot_loc, pivot_table. cbn [pivot_index pivot_columns pivot_values].
  destruct (decide (d ∈ Anomaly.district <$> a)) as [Hd|Hd].
  - apply elem_of_sorted_distinct, label_pos_Some in Hd as (i & -> & Hi).
    cbn [mbind option_bind].
    destruct (decide (h ∈ Anomaly.hour <$> a)) as [Hh|Hh].
    + apply elem_of_sorted_distinct, label_pos_Some in Hh as (j & -> & Hj).
      cbn [mbind option_bind].
      rewrite list_lookup_fmap, Hi. cbn [fmap option_fmap option_map mbind option_bind].
      rewrite list_lookup_fmap, Hj. cbn.
      rewrite decide_True; [done|]. 
      split; eapply elem_of_sorted_distinct, list_elem_of_lookup_2; eauto.
    + rewrite (label_pos_None h) by (by rewrite elem_of_sorted_distinct).
      rewrite decide_False by tauto. done.
  - rewrite (label_pos_None d) by (by rewrite elem_of_sorted_distinct).
    rewrite decide_False by tauto. done.
Qed.

Lemma filter_unique_key {A B} `{EqDecision B} (f : A → B) (l : list A) (x : A) :
  NoDup (f <$> l) → x ∈ l → filter (λ y, f y = f x) l = [x].
Proof.
  induction l as [|y l IH]; intros Hn Hx; [by apply elem_of_nil in Hx|].
  rewrite fmap_cons in Hn. apply NoDup_cons in Hn as [Hy Hn].
  rewrite filter_cons.
  apply elem_of_cons in Hx as [->|Hx].
  - rewrite decide_True by done. f_equal.
    destruct (filter (λ y0, f y0 = f y) l) as [|z g] eqn:E; [done|].
    assert (z ∈ filter (λ y0, f y0 = f y) l) as Hz by (rewrite E; left).
    apply list_elem_of_filter in Hz as [Hz1 Hz2].
    destruct Hy. rewrite <- Hz1. by apply list_elem_of_fmap_2.
  - rewrite decide_False; [by apply IH|].
    intros E. destruct Hy. rewrite E. by apply list_elem_of_fmap_2.
Qed.

Lemma slice_unique (a : anomaly_table) (r : Anomaly.t) :
  NoDup ((λ r, (Anomaly.district r, Anomaly.hour r)) <$> a) → r ∈ a →
  slice (Anomaly.district r) (Anomaly.hour r) a = [r].
Proof.
  intros Hn Hr. unfold slice.
  rewrite <- (filter_unique_key (λ r, (Anomaly.district r, Anomaly.hour r)) a r)
    by done.
  apply list_filter_iff. intros y. split; [by intros [-> ->]|].
  intros [= -> ->]. done.
Qed.

Lemma slice_empty (a : anomaly_table) (d h : Z) :
  (∀ r, r ∈ a → ¬ (Anomaly.district r = d ∧ Anomaly.hour r = h)) →
  slice d h a = [].
Proof.
  intros Hno. unfold slice.
  destruct (filter _ a) as [|z g] eqn:E; [done|].
  assert (z ∈ filter (λ r, Anomaly.district r = d ∧ Anomaly.hour r = h) a)
    as Hz by (rewrite E; left).
  apply list_elem_of_filter in Hz as [Hz1 Hz2]. by destruct (Hno z).
Qed.

Lemma mean_singleton (x : Q) : (mean [x] == x)%Q.
Proof. unfold mean. rewrite Qred_correct. cbn [Qsum foldr length]. field. Qed.

(** C5: when each (district, hour) pair occurs at most once, the pivot of
    the heatmap has a cell exactly for the pairs of an observed district and
    an observed hour (one row per district, one column per hour); the cell of
    an input row's pair holds that row's [delay_rate], and the cell of a
    pair with no input row holds 0. *)
Theorem C5_heatmap_pivot_cells (a : anomaly_table) :
  NoDup ((λ r, (Anomaly.district r, Anomaly.hour r)) <$> a) →
  let p := heat_data (create_anomaly_heatmap a) in
  (∀ d h, is_Some (pivot_loc p d h)
          ↔ d ∈ Anomaly.district <$> a ∧ h ∈ Anomaly.hour <$> a)
  ∧ NoDup (pivot_index p) ∧ NoDup (pivot_columns p)
  ∧ length (pivot_values p) = length (pivot_index p)
  ∧ Forall (λ row, length row = length (pivot_columns p)) (pivot_values p)
  ∧ (∀ r, r ∈ a →
       ∃ v, pivot_loc p (Anomaly.district r) (Anomaly.hour r) = Some v
            ∧ (v == Anomaly.delay_rate r)%Q)
  ∧ (∀ d h, d ∈ Anomaly.district <$> a → h ∈ Anomaly.hour <$> a →
       (∀ r, r ∈ a → ¬ (Anomaly.district r = d ∧ Anomaly.hour r = h)) →
       pivot_loc p d h = Some 0%Q).
Proof.
  intros Hn p. subst p. cbn [create_anomaly_heatmap heat_data].
  split; [|split; [|split; [|split; [|split; [|split]]]]].
  - intros d h. rewrite pivot_loc_table. case_decide; [done|].
    split; [intros [? [=]]|done].
  - apply NoDup_sorted_distinct.
  - apply NoDup_sorted_distinct.
  - cbn. by rewrite length_fmap.
  - cbn. apply Forall_fmap, Forall_forall. intros d _. cbn.
    by rewrite length_fmap.
  - intros r Hr. rewrite pivot_loc_table.
    rewrite decide_True by (split; by apply list_elem_of_fmap_2).
    eexists; split; [done|]. unfold pivot_cell.
    rewrite slice_unique by done. apply mean_singleton.
  - intros d h Hd Hh Hno. rewrite pivot_loc_table, decide_True by done.
    unfold pivot_cell. by rewrite slice_empty.
Qed.

(** ** The loader *)

Lemma load_data_cases (fs : filesystem) :
  (∃ df a sm, try_load fs = inr (df, a, sm)
              ∧ load_data fs = ([], inr (Some df, Some a, sm)))
  ∨ (∃ e, try_load fs = inl e
          ∧ load_data fs
            = ([emit page (error (ErrorLoadingData e))], inr (None, None, None))).
Proof.
  unfold load_data. destruct (try_load fs) as [e|[[df a] sm]].
  - right. by exists e.
  - left. by exists df, a, sm.
Qed.

(** What the [try] block returns is what the files hold. *)
Lemma try_load_inr (fs : filesystem) df a sm :
  try_load fs = inr (df, a, sm) →
  (processed_csv fs = Holds df
   ∨ processed_csv fs = Absent ∧ processed_csv_zip fs = Holds (Holds df))
  ∧ dbscan_anomalies_csv fs = Holds a
  ∧ anomaly_summary_pkl fs = Holds sm.
Proof.
  unfold try_load, extract_if_needed.
  destruct (processed_csv fs) as [| |df0] eqn:Ec,
           (processed_csv_zip fs) as [| |[| |df1]] eqn:Ez; cbn;
    rewrite ?Ec; cbn; try done;
    destruct (dbscan_anomalies_csv fs) as [| |a0]; cbn; try done;
    destruct (anomaly_summary_pkl fs) as [| |sm0]; cbn; try done;
    intros [= -> -> ->]; auto.
Qed.

(** C9, as the code has it: [load_data] returns three [None]s, or a call
    table and an anomaly table that are both there together with what the
    pickle holds, which is [None] when the pickle holds [None]; it returns
    three [None]s as soon as one of the files does not load. *)
Theorem C9_load_data_triples (fs : filesystem) :
  ((∃ df a sm,
      returned (load_data fs) = Some (Some df, Some a, sm)
      ∧ anomaly_summary_pkl fs = Holds sm)
   ∨ returned (load_data fs) = Some (None, None, None))
  ∧ (∀ df a sm,
       processed_csv fs = Holds df → dbscan_anomalies_csv fs = Holds a →
       anomaly_summary_pkl fs = Holds sm →
       returned (load_data fs) = Some (Some df, Some a, sm))
  ∧ (¬ loads (dbscan_anomalies_csv fs) →
       returned (load_data fs) = Some (None, None, None))
  ∧ (¬ loads (anomaly_summary_pkl fs) →
       returned (load_data fs) = Some (None, None, None))
  ∧ (¬ loads (processed_csv fs) → ¬ loads (processed_csv_zip fs) →
       returned (load_data fs) = Some (None, None, None)).
Proof.
  split; [|split; [|split; [|split]]].
  - destruct (load_data_cases fs) as [(df & a & sm & Ht & ->)|(e & _ & ->)];
      [left|by right].
    exists df, a, sm. split; [done|]. by apply try_load_inr in Ht as (_ & _ & ?).
  - intros df a sm Hc Ha Hs. unfold returned, load_data, try_load, extract_if_needed.
    rewrite Hc. cbn [exists_path negb andb]. rewrite andb_false_r. cbn.
    rewrite Hc, Ha, Hs. done.
  - intros Hno.
    destruct (load_data_cases fs) as [(df & a & sm & Ht & _)|(e & _ & ->)];
      [|done].
    apply try_load_inr in Ht as (_ & Ha & _). destruct Hno. by eexists.
  - intros Hno.
    destruct (load_data_cases fs) as [(df & a & sm & Ht & _)|(e & _ & ->)];
      [|done].
    apply try_load_inr in Ht as (_ & _ & Hs). destruct Hno. by eexists.
  - intros Hc Hz.
    destruct (load_data_cases fs) as [(df & a & sm & Ht & _)|(e & _ & ->)];
      [|done].
    apply try_load_inr in Ht as ([Hcsv|[_ Hzip]] & _ & _).
    + destruct Hc. by eexists.
    + destruct Hz. by eexists.
Qed.

(** C9 as stated fails: with a pickle that holds [None] the loader returns
    the two tables and [None]. *)
Lemma C9_counterexample_pickled_none :
  returned (load_data pickled_none_files)
  = Some (Some three_calls, Some two_anomalies, None).
Proof. reflexivity. Qed.

(** ** Runs that halt *)

Lemma trace_bind {A B} (m : render A) (k : A → render B) :
  trace (m ≫= k)
  = trace m ++ match snd m with inr a => trace (k a) | inl _ => [] end.
Proof.
  destruct m as [t [e|a]]; cbn; [by rewrite app_nil_r|].
  by destruct (k a).
Qed.

Lemma main_load_failed (fs : filesystem) (now : string) (e : load_exception) :
  try_load fs = inl e →
  main fs now
  = (trace render_header
       ++ [invoke f_load_data;
           emit page (error (ErrorLoadingData e));
           invoke f_load_austin_districts;
           emit page (error unable_to_load)],
     inr ()).
Proof. intros H. unfold main, load_data. rewrite H. reflexivity. Qed.

(** C3: when [load_data] has returned [None] for the call records, [main]
    emits from there on exactly one error indication and nothing else, and
    returns: the summary is not computed, no tab is created or filled and
    no footer is rendered.  (The loader has emitted its own message before
    it returned.) *)
Theorem C3_primary_unavailable_halts (fs : filesystem) (now : string)
    (a : option anomaly_table) (sm : option AnomalySummary.t) :
  returned (load_data fs) = Some (None, a, sm) →
  let after := trace (main_after_load (None, a, sm) now) in
  trace (main fs now)
  = trace render_header ++ [invoke f_load_data] ++ trace (load_data fs)
      ++ after
  ∧ after = [invoke f_load_austin_districts; emit page (error unable_to_load)]
  ∧ errors after = [unable_to_load]
  ∧ returned (main fs now) = Some ()
  ∧ invoked f_create_district_summary (trace (main fs now)) = false
  ∧ tabs_rendered (trace (main fs now)) = false
  ∧ tab_content tab1 (trace (main fs now)) = false
  ∧ tab_content tab2 (trace (main fs now)) = false
  ∧ footer_rendered (trace (main fs now)) = false.
Proof.
  intros Hret after. subst after.
  destruct (load_data_cases fs) as [(df & a' & sm' & _ & Hl)|(e & He & Hl)].
  { rewrite Hl in Hret. discriminate Hret. }
  rewrite (main_load_failed fs now e He), Hl. by repeat split.
Qed.

Lemma C3_primary_unavailable_halts_witness :
  trace (main no_files "now")
  = trace render_header ++ [invoke f_load_data] ++ trace (load_data no_files)
      ++ trace (main_after_load (None, None, None) "now")
  ∧ trace (main_after_load (None, None, None) "now")
    = [invoke f_load_austin_districts; emit page (error unable_to_load)]
  ∧ errors (trace (main_after_load (None, None, None) "now"))
    = [unable_to_load]
  ∧ returned (main no_files "now") = Some ()
  ∧ invoked f_create_district_summary (trace (main no_files "now")) = false
  ∧ tabs_rendered (trace (main no_files "now")) = false
  ∧ tab_content tab1 (trace (main no_files "now")) = false
  ∧ tab_content tab2 (trace (main no_files "now")) = false
  ∧ footer_rendered (trace (main no_files "now")) = false.
Proof.
  apply (C3_primary_unavailable_halts no_files "now" None None). reflexivity.
Defined.

(** C4 fails on the code: with the call records on disk and the anomaly CSV
    missing, the loader returns three [None]s and the run halts with two
    errors before any tab is created.  Even when [main] gets the call
    records without the anomaly data, the guard of the second tab leaves
    [main], so the first tab is rendered but the footer is not. *)
Theorem C4_missing_anomalies_halt_session (now : string) :
  (returned (load_data anomalies_missing) = Some (None, None, None)
   ∧ errors (trace (main anomalies_missing now))
     = [ErrorLoadingData (FileNotFound "DBSCAN_Anomalies.csv"); unable_to_load]
   ∧ tabs_rendered (trace (main anomalies_missing now)) = false
   ∧ tab_content tab1 (trace (main anomalies_missing now)) = false
   ∧ footer_rendered (trace (main anomalies_missing now)) = false)
  ∧ (let t := trace (render_dashboard one_call None (Some some_summary)
                       load_austin_districts now) in
     tab_content tab1 t = true
     ∧ tab_content tab2 t = true
     ∧ errors t = [anomaly_data_unavailable]
     ∧ last t = Some (emit (in_tab tab2) (error anomaly_data_unavailable))
     ∧ footer_rendered t = false).
Proof. by repeat split. Qed.

(** ** The first tab *)

Lemma metrics_app t1 t2 : metrics (t1 ++ t2) = metrics t1 ++ metrics t2.
Proof. apply omap_app. Qed.

Lemma first_best_bound better l i best_i best :
  (best_i < i)%nat → (first_best better l i best_i best < i + length l)%nat.
Proof.
  revert i best_i best. induction l as [|y l IH]; intros i bi b Hb; cbn.
  - lia.
  - destruct (better y b).
    + specialize (IH (S i) i y). lia.
    + specialize (IH (S i) bi b). lia.
Qed.

(** The narration either stops at the empty summary or names two rows of
    the summary. *)
Lemma render_key_findings_cases (s : district_summary) :
  (s = [] ∧ trace (render_key_findings s)
            = [emit (in_column tab1 2) (subheader "Key Findings")])
  ∨ (∃ slowest fastest,
       slowest ∈ s ∧ fastest ∈ s
       ∧ render_key_findings s
         = ([emit (in_column tab1 2) (subheader "Key Findings");
             emit (in_column tab1 2)
               (markdown
                  (KeyFindings (narrate slowest) (narrate fastest)
                     (hotspot_districts s)
                     (Qred (Summary.avg_response_min slowest
                            - Summary.avg_response_min fastest))))],
            inr ())).
Proof.
  destruct s as [|r s]; [by left|right].
  unfold render_key_findings, idxmax, idxmin. rewrite !fmap_cons.
  set (i := first_best (λ y m, Qlt_bool m y) _ 1 0 _).
  set (j := first_best (λ y m, Qlt_bool y m) _ 1 0 _).
  assert (i < length (r :: s))%nat as Hi.
  { subst i. eapply Nat.lt_le_trans; [apply first_best_bound; lia|].
    rewrite length_fmap. cbn [length]. lia. }
  assert (j < length (r :: s))%nat as Hj.
  { subst j. eapply Nat.lt_le_trans; [apply first_best_bound; lia|].
    rewrite length_fmap. cbn [length]. lia. }
  apply lookup_lt_is_Some in Hi as [sl Hsl].
  apply lookup_lt_is_Some in Hj as [fa Hfa].
  exists sl, fa. split; [by eapply list_elem_of_lookup_2|].
  split; [by eapply list_elem_of_lookup_2|].
  cbn -[hotspot_districts]. unfold loc. rewrite Hsl.
  cbn -[hotspot_districts]. rewrite Hfa. done.
Qed.

Lemma hotspot_count (s : district_summary) :
  length (hotspot_districts s)
  = length (filter (λ r, Summary.is_hotspot r = true) s).
Proof. unfold hotspot_districts. apply length_fmap. Qed.

Lemma avg_response_per_district (df : call_table) :
  avg_response (create_district_summary df)
  = series_mean ((λ d, round2 (mean (Call.response_time_min <$> group_rows d df)))
                   <$> group_keys df).
Proof.
  unfold avg_response.
  by rewrite create_district_summary_rows, <- list_fmap_compose.
Qed.

Lemma overall_delay_rate_counts (df : call_table) :
  overall_delay_rate df
  = match df with
    | [] => None
    | _ => Some (Qred (Qred (inject_Z (count_true (Call.delayed <$> df))
                             / inject_Z (Z.of_nat (length df))) * 100))
    end.
Proof.
  destruct df as [|c df]; [done|].
  unfold overall_delay_rate, series_mean. rewrite fmap_cons.
  cbn [fmap option_fmap option_map]. do 2 f_equal. f_equal.
  unfold mean. apply Qred_complete.
  rewrite <- fmap_cons, Qsum_indicator, length_fmap. reflexivity.
Qed.

Lemma render_key_metrics_run (df : call_table) (s : district_summary) :
  s ≠ [] →
  render_key_metrics df s
  = ([columns (in_tab tab1) [1; 1; 1; 1];
      emit (in_column tab1 1) (metric "Total Calls" (Thousands (total_calls df)));
      emit (in_column tab1 2)
        (metric "Avg Response Time" (Fixed1 (avg_response s) " min"));
      emit (in_column tab1 3)
        (metric "Hotspot Districts"
           (Plain (Z.of_nat (length (hotspot_districts s)))));
      emit (in_column tab1 4)
        (metric "Overall Delay Rate" (Fixed1 (overall_delay_rate df) "%"))],
     inr ()).
Proof. intros Hs. by destruct s. Qed.

(** On the empty summary the first tab stops at line 182, before any tile. *)
Lemma render_tab1_empty (df : call_table) (gdf : option unit) :
  render_tab1 df [] gdf
  = ([emit (in_tab tab1) (header "Percentile-Based Hotspot Analysis");
      emit (in_tab tab1) (markdown (Static
        "*Identifying consistently problematic districts using 90th percentile threshold*"));
      columns (in_tab tab1) [1; 1; 1; 1]],
     inl KeyErrorColumns).
Proof. done. Qed.

Lemma render_tab1_trace (df : call_table) (s : district_summary)
    (gdf : option unit) :
  s ≠ [] →
  trace (render_tab1 df s gdf)
  = [emit (in_tab tab1) (header "Percentile-Based Hotspot Analysis");
     emit (in_tab tab1) (markdown (Static
       "*Identifying consistently problematic districts using 90th percentile threshold*"))]
    ++ trace (render_key_metrics df s)
    ++ [emit (in_tab tab1) (markdown (Static "---"))]
    ++ trace (render_choropleth s gdf)
    ++ trace (render_district_table s)
    ++ trace (render_key_findings s).
Proof.
  intros Hs. unfold render_tab1. rewrite !trace_bind.
  rewrite (render_key_metrics_run df s Hs). reflexivity.
Qed.

Lemma metrics_key_findings (s : district_summary) :
  metrics (trace (render_key_findings s)) = [].
Proof.
  destruct (render_key_findings_cases s)
    as [[_ ->]|(sl & fa & _ & _ & ->)]; done.
Qed.

Lemma summary_nonempty (df : call_table) :
  df ≠ [] → create_district_summary df ≠ [].
Proof.
  intros Hdf Hs. destruct df as [|c df]; [done|].
  assert (Call.council_district c
          ∈ Summary.council_district <$> create_district_summary (c :: df))
    as H.
  { rewrite summary_districts. apply elem_of_sorted_distinct.
    rewrite fmap_cons. left. }
  rewrite Hs in H. by apply elem_of_nil in H.
Qed.

(** C6: for a call table that is not empty, the four tiles of the first
    tab show the row count of the call table, the unweighted mean over the
    rows of the District Summary of their [avg_response_min] (each the
    district's mean response minutes rounded to two decimals), the number of
    summary rows flagged as hotspot, and 100 times the share of delayed
    calls; the second is not the per-call mean.  On the empty call table the
    run stops at line 182, before any tile. *)
Theorem C6_tab1_scalar_metrics :
  (∀ (df : call_table) (gdf : option unit),
     df ≠ [] →
     let s := create_district_summary df in
     metrics (trace (render_tab1 df s gdf))
     = [(in_column tab1 1, "Total Calls"%string,
         Thousands (Z.of_nat (length df)));
        (in_column tab1 2, "Avg Response Time"%string,
         Fixed1 (Some (mean (Summary.avg_response_min <$> s))) " min");
        (in_column tab1 3, "Hotspot Districts"%string,
         Plain (Z.of_nat
                  (length (filter (λ r, Summary.is_hotspot r = true) s))));
        (in_column tab1 4, "Overall Delay Rate"%string,
         Fixed1
           (Some (Qred (Qred (inject_Z (count_true (Call.delayed <$> df))
                              / inject_Z (Z.of_nat (length df))) * 100)))
           "%")]
     ∧ Forall (λ r,
          rounds_to_2
            (mean (Call.response_time_min
                     <$> group_rows (Summary.council_district r) df))
            (Summary.avg_response_min r)) s)
  ∧ (∀ gdf : option unit,
       metrics (trace (render_tab1 [] (create_district_summary []) gdf)) = []
       ∧ snd (render_tab1 [] (create_district_summary []) gdf)
         = inl KeyErrorColumns)
  ∧ (∃ df : call_table,
       avg_response (create_district_summary df) = Some (5 # 2)%Q
       ∧ series_mean (Call.response_time_min <$> df) = Some 2%Q).
Proof.
  split; [|split].
  - intros df gdf Hdf s.
    pose proof (summary_nonempty df Hdf) as Hs. fold s in Hs. split.
    + rewrite (render_tab1_trace df s gdf Hs), !metrics_app.
      rewrite metrics_key_findings, (render_key_metrics_run df s Hs).
      rewrite <- hotspot_count.
      assert (avg_response s
              = Some (mean (Summary.avg_response_min <$> s))) as <-.
      { unfold avg_response, series_mean.
        destruct s; [done|]. by rewrite fmap_cons. }
      assert (overall_delay_rate df
              = Some (Qred (Qred (inject_Z (count_true (Call.delayed <$> df))
                                  / inject_Z (Z.of_nat (length df))) * 100)))
        as <-.
      { rewrite overall_delay_rate_counts. by destruct df. }
      reflexivity.
    + apply Forall_forall. subst s. intros r [d [-> _]]%elem_of_summary.
      apply round2_rounds.
  - intros gdf. change (create_district_summary []) with (@nil Summary.t).
    by rewrite render_tab1_empty.
  - exists [Call.mk 1 60 1 false false; Call.mk 1 60 1 false false;
            Call.mk 2 240 4 false false].
    split; reflexivity.
Qed.

Lemma Qred_minus_self (x : Q) : Qred (x - x) = 0%Q.
Proof. change 0%Q with (Qred 0). apply Qred_complete. ring. Qed.

Lemma single_district_keys (df : call_table) (d : Z) :
  df ≠ [] → (∀ c, c ∈ df → Call.council_district c = d) →
  group_keys df = [d].
Proof.
  intros Hne Hall. apply sorted_distinct_unique.
  - repeat constructor.
  - apply NoDup_singleton.
  - intros x. rewrite list_elem_of_singleton. split.
    + intros ->. destruct df as [|c df]; [done|].
      rewrite <- (Hall c) by left. rewrite fmap_cons. left.
    + intros (c & -> & Hc)%list_elem_of_fmap. by apply Hall.
Qed.

Lemma nunique_one (l : list Z) :
  nunique l = 1 → ∃ d, l ≠ [] ∧ ∀ x, x ∈ l → x = d.
Proof.
  unfold nunique. intros H.
  destruct (remove_dups l) as [|d [|d' k]] eqn:E; cbn in H; try lia.
  exists d. split; [by intros ->|].
  intros x Hx. apply elem_of_remove_dups in Hx. rewrite E in Hx.
  by apply list_elem_of_singleton in Hx.
Qed.

(** C7: when the input has a single district, the summary has that
    district's row only, and the key findings name it both as the slowest
    and as the fastest district, with the same average and the same delay
    percentage. *)
Theorem C7_single_district_findings (df : call_table) (gdf : option unit) :
  nunique (Call.council_district <$> df) = 1 →
  let s := create_district_summary df in
  ∃ r : Summary.t,
    s = [r]
    ∧ (∀ c, c ∈ df → Call.council_district c = Summary.council_district r)
    ∧ render_key_findings s
      = ([emit (in_column tab1 2) (subheader "Key Findings");
          emit (in_column tab1 2)
            (markdown (KeyFindings (narrate r) (narrate r)
                         (hotspot_districts s) 0%Q))],
         inr ())
    ∧ n_council_district (narrate r) = Summary.council_district r
    ∧ emit (in_column tab1 2)
        (markdown (KeyFindings (narrate r) (narrate r)
                     (hotspot_districts s) 0%Q))
      ∈ trace (render_tab1 df s gdf).
Proof.
  intros (d & Hne & Hall)%nunique_one s.
  assert (df ≠ []) as Hdf by (by intros ->).
  assert (∀ c, c ∈ df → Call.council_district c = d) as Hd
    by (intros c Hc; by apply Hall, list_elem_of_fmap_2).
  assert (s = [summary_row d df]) as Hs.
  { subst s. by rewrite create_district_summary_rows,
      (single_district_keys df d). }
  exists (summary_row d df). split; [done|]. split; [done|].
  assert (render_key_findings s
          = ([emit (in_column tab1 2) (subheader "Key Findings");
              emit (in_column tab1 2)
                (markdown (KeyFindings (narrate (summary_row d df))
                             (narrate (summary_row d df))
                             (hotspot_districts s) 0%Q))],
             inr ())) as Hrun.
  { rewrite Hs. unfold render_key_findings. cbn -[hotspot_districts summary_row].
    by rewrite Qred_minus_self. }
  split; [done|]. split; [done|].
  rewrite render_tab1_trace, Hrun by (by rewrite Hs). cbn [trace fst].
  rewrite !elem_of_app. do 5 right. set_solver.
Qed.

(** What the first tab emits is part of what [main] emits once the three
    files have loaded. *)
Lemma tab1_in_main (fs : filesystem) (now : string) (df : call_table)
    (a : anomaly_table) (sm : option AnomalySummary.t) (ev : event) :
  try_load fs = inr (df, a, sm) →
  ev ∈ trace (render_tab1 df (create_district_summary df) load_austin_districts) →
  ev ∈ trace (main fs now).
Proof.
  intros Hload Hev. unfold main, load_data. rewrite Hload.
  rewrite !trace_bind. cbn [snd render_header st log mret render_ret].
  unfold main_after_load. rewrite !trace_bind. cbn [snd st log].
  unfold render_dashboard. rewrite !trace_bind. cbn [snd st log].
  change (render_header.2) with (inr () : exception + ()). cbn match.
  rewrite !elem_of_app. tauto.
Qed.

(** ** The claims at concrete inputs *)

Lemma C1_district_summary_counts_witness :
  length (create_district_summary ten_calls) = 2%nat
  ∧ (λ r, (Summary.council_district r, Summary.total_calls r,
           Summary.delay_rate r, Summary.delay_percentage r))
      <$> create_district_summary ten_calls
    = [(1, 6, 1 # 2, 50%Q); (2, 4, 0%Q, 0%Q)].
Proof.
  split.
  - etrans; [exact (proj1 (proj1 C1_district_summary_counts ten_calls))|].
    vm_compute. reflexivity.
  - apply (proj2 C1_district_summary_counts ten_calls); reflexivity.
Defined.

Lemma C10_rounded_before_percentage_witness :
  ∃ r, r ∈ create_district_summary three_calls
       ∧ Summary.council_district r = 7
       ∧ Summary.delay_rate r = (33 # 100)%Q
       ∧ Summary.delay_percentage r = 33%Q
       ∧ ¬ (Summary.delay_percentage r == (1 # 3) * 100)%Q.
Proof.
  apply (proj2 C10_rounded_before_percentage three_calls 7); reflexivity.
Defined.

Lemma two_anomalies_NoDup :
  NoDup ((λ r, (Anomaly.district r, Anomaly.hour r)) <$> two_anomalies).
Proof. apply (bool_decide_unpack _). vm_compute. exact I. Defined.

Lemma C5_heatmap_pivot_cells_witness :
  let p := heat_data (create_anomaly_heatmap two_anomalies) in
  pivot_loc p 1 3 = Some (1 # 2)%Q ∧ pivot_loc p 1 4 = Some 0%Q
  ∧ pivot_loc p 2 3 = Some 0%Q ∧ pivot_loc p 2 4 = Some (1 # 4)%Q
  ∧ ∀ d h, is_Some (pivot_loc p d h)
           ↔ d ∈ Anomaly.district <$> two_anomalies
             ∧ h ∈ Anomaly.hour <$> two_anomalies.
Proof.
  split; [reflexivity|]. split; [reflexivity|]. split; [reflexivity|].
  split; [reflexivity|].
  exact (proj1 (C5_heatmap_pivot_cells two_anomalies two_anomalies_NoDup)).
Defined.

Lemma C7_single_district_findings_witness :
  ∃ r : Summary.t,
    create_district_summary three_calls = [r]
    ∧ (∀ c, c ∈ three_calls
            → Call.council_district c = Summary.council_district r)
    ∧ render_key_findings (create_district_summary three_calls)
      = ([emit (in_column tab1 2) (subheader "Key Findings");
          emit (in_column tab1 2)
            (markdown (KeyFindings (narrate r) (narrate r)
                         (hotspot_districts
                            (create_district_summary three_calls)) 0%Q))],
         inr ())
    ∧ n_council_district (narrate r) = Summary.council_district r
    ∧ emit (in_column tab1 2)
        (markdown (KeyFindings (narrate r) (narrate r)
                     (hotspot_districts
                        (create_district_summary three_calls)) 0%Q))
      ∈ trace (render_tab1 three_calls
                 (create_district_summary three_calls) None).
Proof.
  apply (C7_single_district_findings three_calls None). reflexivity.
Defined.

Lemma C9_load_data_triples_witness :
  returned (load_data all_files)
  = Some (Some three_calls, Some two_anomalies, Some some_summary)
  ∧ returned (load_data pickled_none_files)
    = Some (Some three_calls, Some two_anomalies, None)
  ∧ returned (load_data anomalies_missing) = Some (None, None, None).
Proof.
  split; [|split].
  - apply (proj1 (proj2 (C9_load_data_triples all_files))); reflexivity.
  - apply (proj1 (proj2 (C9_load_data_triples pickled_none_files)));
      reflexivity.
  - apply (proj1 (proj2 (proj2 (C9_load_data_triples anomalies_missing)))).
    intros [a Ha]. discriminate Ha.
Defined.

Lemma C6_tab1_scalar_metrics_witness :
  metrics (trace (render_tab1 ten_calls (create_district_summary ten_calls)
                    None))
  = [(in_column tab1 1, "Total Calls"%string, Thousands 10);
     (in_column tab1 2, "Avg Response Time"%string,
      Fixed1 (Some 4%Q) " min");
     (in_column tab1 3, "Hotspot Districts"%string, Plain 0);
     (in_column tab1 4, "Overall Delay Rate"%string,
      Fixed1 (Some 30%Q) "%")].
Proof.
  etrans; [apply (proj1 (proj1 C6_tab1_scalar_metrics ten_calls None
                           ltac:(discriminate)))|].
  vm_compute. reflexivity.
Defined.

(** * Further properties *)

(** ** The district summary *)

Lemma StronglySorted_le_lt (l : list Z) :
  StronglySorted Z.le l → NoDup l → StronglySorted Z.lt l.
Proof.
  induction 1 as [|x l Hs IH Hx]; intros Hn; [constructor|].
  apply NoDup_cons in Hn as [Hnx Hn]. constructor; [by apply IH|].
  apply Forall_forall. intros y Hy.
  rewrite Forall_forall in Hx. specialize (Hx y Hy).
  assert (x ≠ y) by (by intros ->). lia.
Qed.

Lemma group_keys_ascending (df : call_table) :
  StronglySorted Z.lt (group_keys df).
Proof.
  apply StronglySorted_le_lt;
    [apply Sorted_sorted_distinct|apply NoDup_sorted_distinct].
Qed.

Lemma Zsum_cons (x : Z) (l : list Z) : Zsum (x :: l) = x + Zsum l.
Proof. done. Qed.

(** Counting a list by key over a duplicate-free list of keys that covers
    it counts every element once. *)
Lemma length_by_key {A} (key : A → Z) (ks : list Z) (l : list A) :
  NoDup ks → (∀ x, x ∈ l → key x ∈ ks) →
  Zsum ((λ k, Z.of_nat (length (filter (λ x, key x = k) l))) <$> ks)
  = Z.of_nat (length l).
Proof.
  intros Hn. induction l as [|x l IH]; intros Hcov.
  - clear. induction ks as [|k ks IH]; [done|].
    by rewrite fmap_cons, Zsum_cons, IH.
  - cbn [length]. rewrite Nat2Z.inj_succ, <- Z.add_1_l, <- IH
      by (intros y Hy; apply Hcov; by right).
    assert (key x ∈ ks) as Hx by (apply Hcov; left).
    clear IH Hcov. induction ks as [|k ks IHk]; [by apply elem_of_nil in Hx|].
    apply NoDup_cons in Hn as [Hk Hn]. rewrite !fmap_cons, !Zsum_cons.
    rewrite filter_cons. destruct (decide (key x = k)) as [E|E].
    + assert (((λ k, Z.of_nat (length (filter (λ x0, key x0 = k) (x :: l))))
                 <$> ks)
              = ((λ k, Z.of_nat (length (filter (λ x0, key x0 = k) l)))
                   <$> ks)) as ->.
      { apply list_fmap_ext. intros _ k' Hk'%list_elem_of_lookup_2.
        rewrite filter_cons, decide_False; [done|]. intros E'. congruence. }
      cbn [length]. lia.
    + apply elem_of_cons in Hx as [Hx|Hx]; [done|].
      rewrite (IHk Hn Hx). lia.
Qed.

Lemma count_true_filter (df : call_table) :
  count_true (Call.delayed <$> df)
  = Z.of_nat (length (filter (λ c, Call.delayed c = true) df)).
Proof.
  unfold count_true. f_equal.
  induction df as [|c df IH]; [done|].
  rewrite fmap_cons, !filter_cons.
  destruct (decide (Call.delayed c = true)); cbn [length]; by rewrite IH.
Qed.

Lemma delayed_in_filter (d : Z) (df : call_table) :
  delayed_in d df
  = length (filter (λ c, Call.council_district c = d)
              (filter (λ c, Call.delayed c = true) df)).
Proof. unfold delayed_in. by rewrite list_filter_filter. Qed.

Lemma total_delayed_summary_row (d : Z) (df : call_table) :
  Summary.total_delayed (summary_row d df) = Z.of_nat (delayed_in d df).
Proof. unfold summary_row. cbn. apply count_true_delayed. Qed.

Lemma summary_nil_inv (df : call_table) :
  create_district_summary df = [] → df = [].
Proof.
  intros Hs. destruct df as [|c df]; [done|].
  assert (Call.council_district c
          ∈ Summary.council_district <$> create_district_summary (c :: df))
    as H.
  { rewrite summary_districts. apply elem_of_sorted_distinct.
    rewrite fmap_cons. left. }
  rewrite Hs in H. by apply elem_of_nil in H.
Qed.

(** X1: the rows of the District Summary come in strictly ascending order
    of [council_district], and the summary is empty exactly when the call
    table is. *)
Theorem summary_ascending_by_district (df : call_table) :
  StronglySorted Z.lt (Summary.council_district <$> create_district_summary df)
  ∧ (create_district_summary df = [] ↔ df = []).
Proof.
  split.
  - rewrite summary_districts. apply group_keys_ascending.
  - split; [apply summary_nil_inv|by intros ->].
Qed.

(** X2: over the rows of the District Summary, [total_calls] adds up to the
    number of call records and [total_delayed] to the number of delayed
    ones: every call is counted in exactly one district. *)
Theorem summary_totals (df : call_table) :
  Zsum (Summary.total_calls <$> create_district_summary df)
  = Z.of_nat (length df)
  ∧ Zsum (Summary.total_delayed <$> create_district_summary df)
    = Z.of_nat (length (filter (λ c, Call.delayed c = true) df)).
Proof.
  rewrite create_district_summary_rows, <- !list_fmap_compose. split.
  - rewrite <- (length_by_key Call.council_district (group_keys df) df).
    + f_equal. apply list_fmap_ext. intros _ d _. cbn -[summary_row].
      apply total_calls_summary_row.
    + apply NoDup_sorted_distinct.
    + intros c Hc. apply elem_of_sorted_distinct. by apply list_elem_of_fmap_2.
  - rewrite <- (length_by_key Call.council_district (group_keys df)
                  (filter (λ c, Call.delayed c = true) df)).
    + f_equal. apply list_fmap_ext. intros _ d _. cbn -[summary_row].
      by rewrite total_delayed_summary_row, delayed_in_filter.
    + apply NoDup_sorted_distinct.
    + intros c [_ Hc]%list_elem_of_filter.
      apply elem_of_sorted_distinct. by apply list_elem_of_fmap_2.
Qed.

Lemma round2_unit (x : Q) : (0 <= x <= 1)%Q → (0 <= round2 x <= 1)%Q.
Proof.
  intros [H0 H1]. rewrite round2_hundredths.
  pose proof (rint_near (x * 100)) as [Hlo Hhi].
  assert (0 <= rint (x * 100) <= 100) as [Hr0 Hr1].
  { split.
    - assert (- (1) < inject_Z (rint (x * 100)))%Q as H by lra.
      unfold Qlt in H. cbn in H. lia.
    - assert (inject_Z (rint (x * 100)) < 101)%Q as H by lra.
      unfold Qlt in H. cbn in H. lia. }
  assert (0 <= inject_Z (rint (x * 100)) <= 100)%Q as [Hq0 Hq1].
  { split.
    - change 0%Q with (inject_Z 0). by rewrite <- Zle_Qle.
    - change 100%Q with (inject_Z 100). by rewrite <- Zle_Qle. }
  unfold Qdiv. assert (/ 100 == 1 # 100)%Q as -> by reflexivity. lra.
Qed.

Lemma calls_in_pos_inv (d : Z) (df : call_table) :
  d ∈ Call.council_district <$> df → (0 < calls_in d df)%nat.
Proof.
  intros (c & -> & Hc)%list_elem_of_fmap. unfold calls_in.
  assert (c ∈ filter (λ c0, Call.council_district c0 = Call.council_district c) df)
    as H by (by apply list_elem_of_filter).
  destruct (filter _ df); [by apply elem_of_nil in H|cbn; lia].
Qed.

Lemma delayed_in_le (d : Z) (df : call_table) :
  (delayed_in d df ≤ calls_in d df)%nat.
Proof.
  unfold delayed_in, calls_in. induction df as [|c df IH]; [done|].
  rewrite !filter_cons.
  destruct (decide (Call.council_district c = d)) as [E|E].
  - destruct (decide (_ ∧ _)); cbn [length]; lia.
  - rewrite decide_False by tauto. done.
Qed.

(** X3: in every row of the District Summary there is at least one call,
    the delayed calls are at most the calls, the delay rate lies between 0
    and 1 and the delay percentage between 0 and 100. *)
Theorem summary_row_bounds (df : call_table) :
  Forall (λ r,
      1 ≤ Summary.total_calls r
      ∧ 0 ≤ Summary.total_delayed r ≤ Summary.total_calls r
      ∧ (0 <= Summary.delay_rate r <= 1)%Q
      ∧ (0 <= Summary.delay_percentage r <= 100)%Q)
    (create_district_summary df).
Proof.
  apply Forall_forall. intros r [d [-> Hd]]%elem_of_summary.
  pose proof (calls_in_pos_inv d df Hd) as Hn.
  pose proof (delayed_in_le d df) as Hk.
  rewrite total_calls_summary_row, total_delayed_summary_row.
  split; [lia|]. split; [lia|].
  assert (0 <= Summary.delay_rate (summary_row d df) <= 1)%Q as Hrate.
  { rewrite (delay_rate_of_counts d df (Z.of_nat (calls_in d df))
               (Z.of_nat (delayed_in d df)));
      [|done|apply count_true_delayed].
    apply round2_unit. rewrite Qred_correct.
    assert (0 < inject_Z (Z.of_nat (calls_in d df)))%Q as Hpos.
    { change 0%Q with (inject_Z 0). rewrite <- Zlt_Qlt. lia. }
    split.
    - apply Qle_shift_div_l; [done|]. rewrite Qmult_0_l.
      change 0%Q with (inject_Z 0). rewrite <- Zle_Qle. lia.
    - apply Qle_shift_div_r; [done|]. rewrite Qmult_1_l.
      rewrite <- Zle_Qle. lia. }
  split; [done|].
  change (Summary.delay_percentage (summary_row d df))
    with (Qred (Summary.delay_rate (summary_row d df) * 100)).
  rewrite Qred_correct. lra.
Qed.

Lemma first_hotspot_group (d : Z) (df : call_table) :
  d ∈ Call.council_district <$> df →
  ∃ pre c post,
    df = pre ++ c :: post ∧ Call.council_district c = d
    ∧ Forall (λ x, Call.council_district x ≠ d) pre
    ∧ first_hotspot (group_rows d df) = Call.is_hotspot c.
Proof.
  unfold group_rows. induction df as [|c df IH]; intros Hd.
  - by apply elem_of_nil in Hd.
  - rewrite filter_cons. destruct (decide (Call.council_district c = d)) as [E|E].
    + by exists [], c, df.
    + rewrite fmap_cons in Hd. apply elem_of_cons in Hd as [Hd|Hd]; [done|].
      destruct (IH Hd) as (pre & c' & post & -> & Hc' & Hpre & Hf).
      exists (c :: pre), c', post. split; [done|]. split; [done|].
      split; [by constructor|done].
Qed.

(** X4: the hotspot flag of a summary row is the flag of the first call of
    that district in table order; when the flag is constant within each
    district, it is the flag of every call of the district. *)
Theorem summary_hotspot_is_first (df : call_table) :
  Forall (λ r,
      ∃ pre c post,
        df = pre ++ c :: post
        ∧ Call.council_district c = Summary.council_district r
        ∧ Forall (λ x, Call.council_district x ≠ Summary.council_district r) pre
        ∧ Summary.is_hotspot r = Call.is_hotspot c)
    (create_district_summary df)
  ∧ ((∀ c1 c2, c1 ∈ df → c2 ∈ df →
        Call.council_district c1 = Call.council_district c2 →
        Call.is_hotspot c1 = Call.is_hotspot c2) →
     ∀ r c, r ∈ create_district_summary df → c ∈ df →
       Call.council_district c = Summary.council_district r →
       Call.is_hotspot c = Summary.is_hotspot r).
Proof.
  assert (∀ r, r ∈ create_district_summary df →
            ∃ pre c post,
              df = pre ++ c :: post
              ∧ Call.council_district c = Summary.council_district r
              ∧ Forall (λ x, Call.council_district x
                             ≠ Summary.council_district r) pre
              ∧ Summary.is_hotspot r = Call.is_hotspot c) as Hfirst.
  { intros r [d [-> Hd]]%elem_of_summary.
    destruct (first_hotspot_group d df Hd) as (pre & c & post & ? & ? & ? & ?).
    by exists pre, c, post. }
  split; [by apply Forall_forall|].
  intros Hconst r c Hr Hc Hsame.
  destruct (Hfirst r Hr) as (pre & c' & post & Hdf & Hc' & _ & ->).
  apply Hconst; [done| |congruence].
  rewrite Hdf. apply elem_of_app. right. left.
Qed.

Lemma hotspot_districts_keys (df : call_table) :
  hotspot_districts (create_district_summary df)
  = filter (λ d, first_hotspot (group_rows d df) = true) (group_keys df).
Proof.
  unfold hotspot_districts. rewrite create_district_summary_rows.
  induction (group_keys df) as [|d ks IH]; [done|].
  rewrite fmap_cons, !filter_cons.
  change (Summary.is_hotspot (summary_row d df))
    with (first_hotspot (group_rows d df)).
  destruct (decide (first_hotspot (group_rows d df) = true));
    [rewrite fmap_cons|]; by rewrite IH.
Qed.

(** X5: the hotspot districts listed on the page are the districts whose
    first call carries the hotspot flag, in strictly ascending order; the
    one named as primary hotspot (the head of the list) is the smallest of
    them, and there is none exactly when no district is flagged. *)
Theorem hotspot_districts_ascending (df : call_table) :
  let hs := hotspot_districts (create_district_summary df) in
  StronglySorted Z.lt hs
  ∧ (∀ d, d ∈ hs ↔ d ∈ Call.council_district <$> df
                    ∧ first_hotspot (group_rows d df) = true)
  ∧ (∀ p d, head hs = Some p → d ∈ hs → p ≤ d)
  ∧ (head hs = None
     ↔ ∀ r, r ∈ create_district_summary df → Summary.is_hotspot r = false).
Proof.
  intros hs. subst hs. rewrite hotspot_districts_keys.
  split; [apply StronglySorted_filter, group_keys_ascending|].
  split.
  { intros d. rewrite list_elem_of_filter. unfold group_keys.
    rewrite elem_of_sorted_distinct. tauto. }
  split.
  { intros p d Hp Hd.
    pose proof (StronglySorted_filter Z.lt
                  (λ d, first_hotspot (group_rows d df) = true)
                  (group_keys df) (group_keys_ascending df)) as Hs.
    destruct (filter _ (group_keys df)) as [|x l]; [done|].
    injection Hp as ->. apply elem_of_cons in Hd as [->|Hd]; [lia|].
    apply StronglySorted_inv in Hs as [_ Hx]. rewrite Forall_forall in Hx.
    specialize (Hx d Hd). lia. }
  split.
  - intros Hh r [d [-> Hd]]%elem_of_summary.
    change (Summary.is_hotspot (summary_row d df))
      with (first_hotspot (group_rows d df)).
    destruct (first_hotspot (group_rows d df)) eqn:E; [|done].
    assert (d ∈ filter (λ d, first_hotspot (group_rows d df) = true)
                  (group_keys df)) as Hin.
    { apply list_elem_of_filter. split; [done|].
      by apply elem_of_sorted_distinct. }
    destruct (filter _ (group_keys df)); [by apply elem_of_nil in Hin|done].
  - intros Hall.
    destruct (filter _ (group_keys df)) as [|x l] eqn:E; [done|].
    assert (x ∈ filter (λ d, first_hotspot (group_rows d df) = true)
                  (group_keys df)) as Hin by (rewrite E; left).
    apply list_elem_of_filter in Hin as [Hx Hk].
    unfold group_keys in Hk. rewrite elem_of_sorted_distinct in Hk.
    specialize (Hall (summary_row x df)).
    rewrite elem_of_summary in Hall.
    assert (Summary.is_hotspot (summary_row x df) = false) as Hf
      by (apply Hall; exists x; by split).
    change (Summary.is_hotspot (summary_row x df))
      with (first_hotspot (group_rows x df)) in Hf. congruence.
Qed.

(** ** The loader *)

Local Open Scope string_scope.

(** X6: when a file sits at the CSV path, the archive is never read:
    whatever is at the archive path, even an unreadable file, the loader
    returns the same result and emits the same messages. *)
Theorem load_data_ignores_archive (fs : filesystem)
    (z : artifact (artifact call_table)) :
  exists_path (processed_csv fs) = true →
  load_data {| processed_csv_zip := z;
               processed_csv := processed_csv fs;
               dbscan_anomalies_csv := dbscan_anomalies_csv fs;
               anomaly_summary_pkl := anomaly_summary_pkl fs |}
  = load_data fs.
Proof.
  intros Hcsv. unfold load_data, try_load, extract_if_needed.
  cbn [processed_csv processed_csv_zip]. rewrite Hcsv, !andb_false_r. done.
Qed.

(** X7: when nothing sits at the CSV path, the call records come from the
    archive: with a readable archive holding a table and the two anomaly
    files loading, the loader returns that table; with an unreadable archive
    it reports a bad archive, and with no archive a missing CSV, and returns
    three [None]s. *)
Theorem load_data_from_archive (fs : filesystem) :
  processed_csv fs = Absent →
  (∀ df a sm,
     processed_csv_zip fs = Holds (Holds df) →
     dbscan_anomalies_csv fs = Holds a → anomaly_summary_pkl fs = Holds sm →
     load_data fs = ([], inr (Some df, Some a, sm)))
  ∧ (processed_csv_zip fs = Unreadable →
     load_data fs
     = ([emit page (error (ErrorLoadingData BadZipFile))],
        inr (None, None, None)))
  ∧ (processed_csv_zip fs = Absent ∨ processed_csv_zip fs = Holds Absent →
     load_data fs
     = ([emit page (error (ErrorLoadingData
                             (FileNotFound "APD_911_Final_Processed.csv")))],
        inr (None, None, None)))
  ∧ (processed_csv_zip fs = Holds Unreadable →
     load_data fs
     = ([emit page (error (ErrorLoadingData ParseError))],
        inr (None, None, None))).
Proof.
  intros Hcsv. unfold load_data, try_load, extract_if_needed. rewrite Hcsv.
  split; [|split; [|split]].
  - intros df a sm -> Ha Hs. cbn. by rewrite Ha, Hs.
  - by intros ->.
  - intros [-> | ->]; cbn; by rewrite ?Hcsv.
  - by intros ->.
Qed.


Local Close Scope string_scope.

(** ** The slowest and the fastest district *)

Lemma Qlt_bool_true (x y : Q) : Qlt_bool x y = true ↔ (x < y)%Q.
Proof.
  unfold Qlt_bool. rewrite negb_true_iff. split.
  - intros H. apply Qnot_le_lt. intros Hle%Qle_bool_iff. congruence.
  - intros H. destruct (Qle_bool y x) eqn:E; [|done].
    apply Qle_bool_iff in E. by apply Qlt_not_le in H.
Qed.

Lemma Qlt_bool_false (x y : Q) : Qlt_bool x y = false ↔ (y <= x)%Q.
Proof.
  unfold Qlt_bool. rewrite negb_false_iff. apply Qle_bool_iff.
Qed.

Section first_best_spec.
Context (better : Q → Q → bool).
Hypothesis better_irrefl : ∀ x, better x x = false.
Hypothesis better_step : ∀ y b z,
  better y b = true → better z b = false →
  better z y = false ∧ better y z = true.

Lemma first_best_correct (l pre : list Q) (bi : nat) (b : Q) :
  first_best_at better pre bi b →
  ∃ b', first_best_at better (pre ++ l)
          (first_best better l (length pre) bi b) b'.
Proof using better_irrefl better_step.
  revert pre bi b. induction l as [|y l IH]; intros pre bi b (Hb & Hall & Hfirst).
  - exists b. by rewrite app_nil_r.
  - cbn [first_best]. rewrite cons_middle, app_assoc.
    replace (S (length pre)) with (length (pre ++ [y]))
      by (rewrite length_app; cbn; lia).
    pose proof (lookup_lt_Some _ _ _ Hb) as Hlt.
    destruct (better y b) eqn:E; apply IH.
    + split; [|split].
      * rewrite lookup_app_r, Nat.sub_diag by lia. done.
      * intros k z Hk. apply lookup_app_Some in Hk as [Hk|[_ Hk]].
        -- by apply (better_step y b z E (Hall k z Hk)).
        -- apply list_lookup_singleton_Some in Hk as [_ <-].
           apply better_irrefl.
      * intros k z Hklt Hk. rewrite lookup_app_l in Hk by done.
        by apply (better_step y b z E (Hall k z Hk)).
    + split; [|split].
      * by rewrite lookup_app_l.
      * intros k z Hk. apply lookup_app_Some in Hk as [Hk|[_ Hk]].
        -- by eapply Hall.
        -- by apply list_lookup_singleton_Some in Hk as [_ <-].
      * intros k z Hklt Hk. rewrite lookup_app_l in Hk by lia.
        by eapply Hfirst.
Qed.

Lemma first_best_head (x : Q) (l : list Q) :
  ∃ b', first_best_at better (x :: l) (first_best better l 1 0 x) b'.
Proof using better_irrefl better_step.
  apply (first_best_correct l [x] 0 x). split; [done|]. split.
  - intros [|k] z Hk; [|done]. injection Hk as <-. apply better_irrefl.
  - intros k z Hk. lia.
Qed.
End first_best_spec.

Lemma idxmax_first_max (x : Q) (l : list Q) :
  ∃ b, first_best_at (λ y m, Qlt_bool m y) (x :: l)
         (first_best (λ y m, Qlt_bool m y) l 1 0 x) b.
Proof.
  apply first_best_head.
  - intros y. apply Qlt_bool_false, Qle_refl.
  - intros y b z Hy%Qlt_bool_true Hz%Qlt_bool_false. split.
    + apply Qlt_bool_false. lra.
    + apply Qlt_bool_true. lra.
Qed.

Lemma idxmin_first_min (x : Q) (l : list Q) :
  ∃ b, first_best_at (λ y m, Qlt_bool y m) (x :: l)
         (first_best (λ y m, Qlt_bool y m) l 1 0 x) b.
Proof.
  apply first_best_head.
  - intros y. apply Qlt_bool_false, Qle_refl.
  - intros y b z Hy%Qlt_bool_true Hz%Qlt_bool_false. split.
    + apply Qlt_bool_false. lra.
    + apply Qlt_bool_true. lra.
Qed.

Lemma render_key_findings_first_extremes (s : district_summary) :
  s ≠ [] →
  ∃ (i j : nat) (slowest fastest : Summary.t),
    s !! i = Some slowest ∧ s !! j = Some fastest
    ∧ render_key_findings s
      = ([emit (in_column tab1 2) (subheader "Key Findings");
          emit (in_column tab1 2)
            (markdown
               (KeyFindings (narrate slowest) (narrate fastest)
                  (hotspot_districts s)
                  (Qred (Summary.avg_response_min slowest
                         - Summary.avg_response_min fastest))))],
         inr ())
    ∧ (∀ r, r ∈ s →
         (Summary.avg_response_min r <= Summary.avg_response_min slowest)%Q)
    ∧ (∀ k r, (k < i)%nat → s !! k = Some r →
         (Summary.avg_response_min r < Summary.avg_response_min slowest)%Q)
    ∧ (∀ r, r ∈ s →
         (Summary.avg_response_min fastest <= Summary.avg_response_min r)%Q)
    ∧ (∀ k r, (k < j)%nat → s !! k = Some r →
         (Summary.avg_response_min fastest < Summary.avg_response_min r)%Q)
    ∧ (0 <= Qred (Summary.avg_response_min slowest
                  - Summary.avg_response_min fastest))%Q.
Proof.
  intros Hne. destruct s as [|r0 s]; [done|]. clear Hne.
  destruct (idxmax_first_max (Summary.avg_response_min r0)
              (Summary.avg_response_min <$> s)) as (bmax & Hi & Hmax & Hmax1).
  destruct (idxmin_first_min (Summary.avg_response_min r0)
              (Summary.avg_response_min <$> s)) as (bmin & Hj & Hmin & Hmin1).
  set (i := first_best (λ y m, Qlt_bool m y) _ 1 0 _) in *.
  set (j := first_best (λ y m, Qlt_bool y m) _ 1 0 _) in *.
  change (Summary.avg_response_min r0 :: (Summary.avg_response_min <$> s))
    with (Summary.avg_response_min <$> (r0 :: s)) in *.
  apply list_lookup_fmap_Some in Hi as (sl & -> & Hsl).
  apply list_lookup_fmap_Some in Hj as (fa & -> & Hfa).
  exists i, j, sl, fa. split; [done|]. split; [done|].
  assert (∀ r, r ∈ r0 :: s →
            (Summary.avg_response_min r <= Summary.avg_response_min sl)%Q)
    as Hle_max.
  { intros r [k Hk]%list_elem_of_lookup_1. apply Qlt_bool_false.
    apply (Hmax k). by rewrite list_lookup_fmap, Hk. }
  assert (∀ r, r ∈ r0 :: s →
            (Summary.avg_response_min fa <= Summary.avg_response_min r)%Q)
    as Hle_min.
  { intros r [k Hk]%list_elem_of_lookup_1. apply Qlt_bool_false.
    apply (Hmin k). by rewrite list_lookup_fmap, Hk. }
  split.
  { unfold render_key_findings, idxmax, idxmin. rewrite !fmap_cons.
    fold i j. clearbody i j. cbn -[hotspot_districts]. unfold loc.
    rewrite Hsl. cbn -[hotspot_districts]. rewrite Hfa. done. }
  split; [done|]. split.
  { intros k r Hk Hr. apply Qlt_bool_true. apply (Hmax1 k); [done|].
    by rewrite list_lookup_fmap, Hr. }
  split; [done|]. split.
  { intros k r Hk Hr. apply Qlt_bool_true. apply (Hmin1 k); [done|].
    by rewrite list_lookup_fmap, Hr. }
  rewrite Qred_correct.
  assert (fa ∈ r0 :: s) as Hin by (by eapply list_elem_of_lookup_2).
  specialize (Hle_max fa Hin). lra.
Qed.

(** X9: on a non-empty summary the key findings are emitted, and they name
    as slowest the first row (in summary order) with the greatest
    [avg_response_min] and as fastest the first row with the least; the
    difference reported as impact is not negative. *)
Theorem key_findings_extremes (s : district_summary) :
  s ≠ [] →
  ∃ (i j : nat) (slowest fastest : Summary.t),
    s !! i = Some slowest ∧ s !! j = Some fastest
    ∧ render_key_findings s
      = ([emit (in_column tab1 2) (subheader "Key Findings");
          emit (in_column tab1 2)
            (markdown
               (KeyFindings (narrate slowest) (narrate fastest)
                  (hotspot_districts s)
                  (Qred (Summary.avg_response_min slowest
                         - Summary.avg_response_min fastest))))],
         inr ())
    ∧ (∀ r, r ∈ s →
         (Summary.avg_response_min r <= Summary.avg_response_min slowest)%Q)
    ∧ (∀ k r, (k < i)%nat → s !! k = Some r →
         (Summary.avg_response_min r < Summary.avg_response_min slowest)%Q)
    ∧ (∀ r, r ∈ s →
         (Summary.avg_response_min fastest <= Summary.avg_response_min r)%Q)
    ∧ (∀ k r, (k < j)%nat → s !! k = Some r →
         (Summary.avg_response_min fastest < Summary.avg_response_min r)%Q)
    ∧ (0 <= Qred (Summary.avg_response_min slowest
                  - Summary.avg_response_min fastest))%Q.
Proof. apply render_key_findings_first_extremes. Qed.

Lemma sorted_lookup_le {A} (f : A → Z) (s : list A) (i k : nat) (a b : A) :
  StronglySorted Z.lt (f <$> s) → s !! i = Some a → s !! k = Some b →
  (i ≤ k)%nat → f a ≤ f b.
Proof.
  revert i k. induction s as [|x s IH]; intros i k Hs Hi Hk Hik; [done|].
  rewrite fmap_cons in Hs. apply StronglySorted_inv in Hs as [Hs Hx].
  destruct i as [|i], k as [|k]; cbn in Hi, Hk; simplify_eq; try lia.
  - rewrite Forall_forall in Hx.
    assert (f b ∈ f <$> s) as Hb
      by (apply list_elem_of_fmap_2; by eapply list_elem_of_lookup_2).
    specialize (Hx _ Hb). lia.
  - apply (IH i k); [done..|lia].
Qed.

(** X10: for the summary of a non-empty call table, the slowest district
    named has the greatest average response of the summary and the fastest
    one the least, and ties are broken by district: among the districts with
    the greatest average response the slowest one named is the one with the
    smallest identifier, and likewise for the fastest. *)
Theorem key_findings_tie_break (df : call_table) :
  df ≠ [] →
  let s := create_district_summary df in
  ∃ slowest fastest : Summary.t,
    slowest ∈ s ∧ fastest ∈ s
    ∧ trace (render_key_findings s)
      = [emit (in_column tab1 2) (subheader "Key Findings");
         emit (in_column tab1 2)
           (markdown
              (KeyFindings (narrate slowest) (narrate fastest)
                 (hotspot_districts s)
                 (Qred (Summary.avg_response_min slowest
                        - Summary.avg_response_min fastest))))]
    ∧ (∀ r, r ∈ s →
         (Summary.avg_response_min r <= Summary.avg_response_min slowest)%Q)
    ∧ (∀ r, r ∈ s →
         (Summary.avg_response_min fastest <= Summary.avg_response_min r)%Q)
    ∧ (∀ r, r ∈ s →
         (Summary.avg_response_min r == Summary.avg_response_min slowest)%Q →
         Summary.council_district slowest ≤ Summary.council_district r)
    ∧ (∀ r, r ∈ s →
         (Summary.avg_response_min r == Summary.avg_response_min fastest)%Q →
         Summary.council_district fastest ≤ Summary.council_district r).
Proof.
  intros Hne s.
  assert (s ≠ []) as Hs.
  { subst s. intros H. by apply summary_nil_inv in H. }
  destruct (render_key_findings_first_extremes s Hs)
    as (i & j & sl & fa & Hsl & Hfa & Hrun & Hgreatest & Hmax & Hleast & Hmin
        & _).
  exists sl, fa.
  split; [by eapply list_elem_of_lookup_2|].
  split; [by eapply list_elem_of_lookup_2|].
  split; [by rewrite Hrun|].
  split; [done|]. split; [done|].
  pose proof (group_keys_ascending df) as Hsorted.
  rewrite <- summary_districts in Hsorted. fold s in Hsorted.
  split.
  - intros r [k Hk]%list_elem_of_lookup_1 Heq.
    destruct (decide (k < i)%nat) as [Hlt|Hge].
    + specialize (Hmax k r Hlt Hk). lra.
    + apply (sorted_lookup_le Summary.council_district s i k); [done..|lia].
  - intros r [k Hk]%list_elem_of_lookup_1 Heq.
    destruct (decide (k < j)%nat) as [Hlt|Hge].
    + specialize (Hmin k r Hlt Hk). lra.
    + apply (sorted_lookup_le Summary.council_district s j k); [done..|lia].
Qed.

(** ** The table of the first tab *)

#[global] Instance flip_by_avg_response_min_trans :
  Transitive (flip by_avg_response_min).
Proof. intros x y z H1 H2. unfold flip in *. by etrans. Qed.

#[global] Instance flip_by_avg_response_min_total :
  Total (flip by_avg_response_min).
Proof. intros x y. unfold flip. destruct (total by_avg_response_min x y); auto. Qed.

(** X11: the table of the first tab shows one row per row of the summary
    (district, average minutes, delay percentage, calls, hotspot flag), in
    descending order of average response minutes. *)
Theorem district_table_descending (s : district_summary) :
  ∃ rows : list display_row,
    render_district_table s
    = ([columns (in_tab tab1) [2; 1];
        emit (in_column tab1 1) (subheader "District Performance Summary");
        emit (in_column tab1 1) (dataframe rows)],
       inr ())
    ∧ rows ≡ₚ (λ r, (Summary.council_district r, Summary.avg_response_min r,
                     Summary.delay_percentage r, Summary.total_calls r,
                     Summary.is_hotspot r)) <$> s
    ∧ StronglySorted (flip Qle) (row_avg_response_min <$> rows).
Proof.
  exists (display <$> sort_values_avg_response_min false s).
  split; [done|]. unfold sort_values_avg_response_min. split.
  - by rewrite (merge_sort_Permutation (flip by_avg_response_min) s).
  - rewrite <- list_fmap_compose.
    apply (StronglySorted_fmap _ (flip by_avg_response_min)); [done|].
    apply StronglySorted_merge_sort; apply _.
Qed.

(** ** Runs of the whole page *)

Lemma outcome_bind {A B} (m : render A) (k : A → render B) :
  snd (m ≫= k) = match snd m with inl e => inl e | inr a => snd (k a) end.
Proof. destruct m as [t [e|a]]; cbn; [done|]. by destruct (k a). Qed.

Lemma errors_app t1 t2 : errors (t1 ++ t2) = errors t1 ++ errors t2.
Proof. apply omap_app. Qed.

Lemma in_tabs_quiet (t : list event) :
  Forall in_tabs t →
  errors t = [] ∧ footer_rendered t = false ∧ tabs_rendered t = false.
Proof.
  induction 1 as [|ev t Hev _ (IH1 & IH2 & IH3)]; [done|].
  unfold errors, footer_rendered, tabs_rendered in *. cbn.
  rewrite IH1, IH2, IH3.
  destruct ev as [[] []| | |]; try done; by destruct Hev.
Qed.

Lemma render_district_outcome (sm : AnomalySummary.t) (i : nat) (d : Z) :
  snd (render_district sm i d)
  = match AnomalySummary.detailed_analysis sm !! d with
    | Some _ => inr ()
    | None => inl (KeyError d)
    end.
Proof.
  unfold render_district, details_of.
  destruct (AnomalySummary.detailed_analysis sm !! d) as [det|]; [|done].
  cbn. by destruct (frame_empty (Details.worst_hours det)).
Qed.

Lemma render_district_in_tabs (sm : AnomalySummary.t) (i : nat) (d : Z) :
  Forall in_tabs (trace (render_district sm i d)).
Proof.
  unfold render_district, details_of.
  destruct (AnomalySummary.detailed_analysis sm !! d) as [det|];
    [|by repeat constructor].
  cbn. destruct (frame_empty (Details.worst_hours det)); by repeat constructor.
Qed.

Lemma for_enumerate_in_tabs (sm : AnomalySummary.t) (i : nat) (l : list Z) :
  Forall in_tabs (trace (for_enumerate (render_district sm) i l)).
Proof.
  revert i. induction l as [|d l IH]; intros i; [constructor|].
  cbn [for_enumerate]. rewrite trace_bind. apply Forall_app. split.
  - apply render_district_in_tabs.
  - destruct (snd _); [constructor|apply IH].
Qed.

Lemma for_enumerate_outcome (sm : AnomalySummary.t) (i : nat) (l : list Z) :
  snd (for_enumerate (render_district sm) i l)
  = match list_find (λ d, AnomalySummary.detailed_analysis sm !! d = None) l with
    | Some (_, d) => inl (KeyError d)
    | None => inr ()
    end.
Proof.
  revert i. induction l as [|d l IH]; intros i; [done|].
  cbn [for_enumerate list_find]. rewrite outcome_bind, render_district_outcome.
  destruct (AnomalySummary.detailed_analysis sm !! d) as [det|] eqn:E.
  - rewrite decide_False by done. rewrite IH.
    by destruct (list_find _ l) as [[k d']|].
  - by rewrite decide_True.
Qed.

Lemma render_tab2_in_tabs (a : anomaly_table) (sm : AnomalySummary.t)
    (hs : list Z) :
  Forall in_tabs (trace (render_tab2 a sm hs)).
Proof.
  unfold render_tab2. rewrite !trace_bind. cbn [snd st log].
  repeat (apply Forall_app; split); try (by repeat constructor).
  - apply for_enumerate_in_tabs.
  - destruct (snd (for_enumerate _ _ _)); [constructor|].
    apply Forall_app; split; [by repeat constructor|].
    cbn [snd st]. destruct (AnomalySummary.top_3_districts sm) as [|top l];
      [constructor|].
    unfold details_of.
    destruct (AnomalySummary.detailed_analysis sm !! top);
      by repeat constructor.
Qed.

Lemma render_tab2_outcome (a : anomaly_table) (sm : AnomalySummary.t)
    (hs : list Z) :
  snd (render_tab2 a sm hs)
  = match first_without_details sm with
    | Some d => inl (KeyError d)
    | None =>
        match AnomalySummary.top_3_districts sm with
        | [] => inl IndexError
        | _ => inr ()
        end
    end.
Proof.
  unfold render_tab2, first_without_details. rewrite !outcome_bind.
  cbn [snd st log]. rewrite for_enumerate_outcome.
  destruct (list_find _ (AnomalySummary.top_3_districts sm))
    as [[k d]|] eqn:E; [done|].
  cbn [fmap option_fmap option_map snd st].
  destruct (AnomalySummary.top_3_districts sm) as [|top l]; [done|].
  apply list_find_None in E. apply Forall_cons in E as [Htop _].
  unfold details_of.
  destruct (AnomalySummary.detailed_analysis sm !! top); [done|].
  by destruct Htop.
Qed.

(** X12: the second tab stops at the first listed district that has no
    entry in the detailed analysis, with a [KeyError] for that district; with
    every listed district described it stops with an [IndexError] when the
    list is empty, and completes otherwise.  The anomaly table is taken
    non-empty: what the charting library does with an empty grid is not
    modelled. *)
Theorem tab2_outcome (a : anomaly_table) (sm : AnomalySummary.t)
    (hs : list Z) :
  a ≠ [] →
  snd (render_tab2 a sm hs)
  = match first_without_details sm with
    | Some d => inl (KeyError d)
    | None =>
        match AnomalySummary.top_3_districts sm with
        | [] => inl IndexError
        | _ => inr ()
        end
    end
  ∧ (∀ d, first_without_details sm = Some d ↔
       ∃ pre post,
         AnomalySummary.top_3_districts sm = pre ++ d :: post
         ∧ AnomalySummary.detailed_analysis sm !! d = None
         ∧ Forall (λ x, is_Some (AnomalySummary.detailed_analysis sm !! x)) pre).
Proof.
  intros _. split; [apply render_tab2_outcome|].
  intros d. unfold first_without_details. split.
  - destruct (list_find _ _) as [[k d']|] eqn:E; [|done].
    intros [= ->]. apply list_find_Some in E as (Hk & Hd & Hpre).
    exists (take k (AnomalySummary.top_3_districts sm)),
           (drop (S k) (AnomalySummary.top_3_districts sm)).
    split; [by rewrite take_drop_middle|]. split; [done|].
    apply Forall_forall. intros x [j Hj]%list_elem_of_lookup_1.
    apply lookup_take_Some in Hj as [Hj Hlt].
    apply not_eq_None_Some. by eapply Hpre.
  - intros (pre & post & Hl & Hd & Hpre).
    assert (list_find (λ d, AnomalySummary.detailed_analysis sm !! d = None)
              (AnomalySummary.top_3_districts sm) = Some (length pre, d))
      as ->; [|done].
    apply list_find_Some. rewrite Hl. split.
    + by rewrite lookup_app_r, Nat.sub_diag.
    + split; [done|]. intros j y Hj Hlt. rewrite lookup_app_l in Hj by done.
      rewrite Forall_forall in Hpre.
      apply list_elem_of_lookup_2 in Hj. destruct (Hpre y Hj) as [z Hz].
      by rewrite Hz.
Qed.

Lemma render_tab1_in_tabs (df : call_table) (s : district_summary)
    (gdf : option unit) :
  Forall in_tabs (trace (render_tab1 df s gdf)).
Proof.
  destruct s as [|r s]; [rewrite render_tab1_empty; by repeat constructor|].
  rewrite render_tab1_trace by done.
  repeat (apply Forall_app; split); try (by repeat constructor).
  destruct (render_key_findings_cases (r :: s))
    as [[_ ->]|(sl & fa & _ & _ & ->)]; by repeat constructor.
Qed.

Lemma render_tab1_outcome (df : call_table) (s : district_summary)
    (gdf : option unit) :
  snd (render_tab1 df s gdf)
  = match s with [] => inl KeyErrorColumns | _ => inr () end.
Proof.
  destruct s as [|r s]; [done|].
  unfold render_tab1. rewrite !outcome_bind. cbn [snd st log].
  rewrite (render_key_metrics_run df (r :: s)) by done.
  change (snd (render_choropleth (r :: s) gdf)) with (inr () : exception + ()).
  change (snd (render_district_table (r :: s)))
    with (inr () : exception + ()).
  cbn [snd]. destruct (render_key_findings_cases (r :: s))
    as [[? _]|(sl & fa & _ & _ & ->)]; done.
Qed.

Lemma main_loaded (fs : filesystem) (now : string) (df : call_table)
    (a : anomaly_table) (sm : option AnomalySummary.t) :
  try_load fs = inr (df, a, sm) →
  trace (main fs now)
  = trace render_header
      ++ [invoke f_load_data; invoke f_load_austin_districts]
      ++ trace (render_dashboard df (Some a) sm load_austin_districts now)
  ∧ snd (main fs now)
    = snd (render_dashboard df (Some a) sm load_austin_districts now).
Proof.
  intros Hload. unfold main, load_data. rewrite Hload. split.
  - rewrite !trace_bind.
    change (render_header.2) with (inr () : exception + ()).
    cbn [snd log mret render_ret]. unfold main_after_load.
    by rewrite trace_bind.
  - rewrite !outcome_bind.
    change (render_header.2) with (inr () : exception + ()).
    cbn [snd log mret render_ret]. unfold main_after_load.
    by rewrite outcome_bind.
Qed.

Lemma render_dashboard_loaded (df : call_table) (a : anomaly_table)
    (sm : AnomalySummary.t) (gdf : option unit) (now : string) :
  let s := create_district_summary df in
  let t1 := render_tab1 df s gdf in
  let t2 := render_tab2 a sm (hotspot_districts s) in
  trace (render_dashboard df (Some a) (Some sm) gdf now)
  = [emit sidebar (header "Dashboard Controls");
     emit sidebar (info (DataSummary (Z.of_nat (length df))
                           (nunique (Call.council_district <$> df))));
     invoke f_create_district_summary;
     tabs ["Percentile-Based Hotspots"%string; "ML Anomaly Detection"%string]]
    ++ trace t1
    ++ match snd t1 with
       | inl _ => []
       | inr _ =>
           [emit (in_tab tab2) (header "ML-Based Anomaly Detection");
            emit (in_tab tab2)
              (markdown (Static
                 "*DBSCAN clustering identifies unusual operational patterns*"))]
           ++ trace t2
           ++ match snd t2 with
              | inl _ => []
              | inr _ => trace (render_footer now)
              end
       end
  ∧ snd (render_dashboard df (Some a) (Some sm) gdf now)
    = match snd t1 with
      | inl e => inl e
      | inr _ => match snd t2 with inl e => inl e | inr _ => inr () end
      end.
Proof.
  intros s t1 t2. unfold render_dashboard. fold s. split.
  - rewrite !trace_bind. cbn [snd st log]. fold t1 t2.
    destruct (snd t1); [done|]. by destruct (snd t2).
  - rewrite !outcome_bind. cbn [snd st log]. fold t1 t2.
    destruct (snd t1); [done|]. by destruct (snd t2).
Qed.

Lemma footer_rendered_app t1 t2 :
  footer_rendered (t1 ++ t2) = footer_rendered t1 || footer_rendered t2.
Proof. apply existsb_app. Qed.

Lemma tabs_rendered_app t1 t2 :
  tabs_rendered (t1 ++ t2) = tabs_rendered t1 || tabs_rendered t2.
Proof. apply existsb_app. Qed.

Lemma invoked_app f t1 t2 : invoked f (t1 ++ t2) = invoked f t1 || invoked f t2.
Proof. apply existsb_app. Qed.

Lemma tab_content_app tb t1 t2 :
  tab_content tb (t1 ++ t2) = tab_content tb t1 || tab_content tb t2.
Proof. apply existsb_app. Qed.

(** X13: once the three files have loaded, with a call table and an anomaly
    table that are not empty, the run completes exactly when every listed
    top district has an entry in the detailed analysis and the list is not
    empty; the footer is rendered exactly when the run completes, and in
    either case the tabs are created, the summary is computed and no error
    indication is emitted. *)
Theorem main_completes_iff (fs : filesystem) (now : string) (df : call_table)
    (a : anomaly_table) (sm : AnomalySummary.t) :
  try_load fs = inr (df, a, Some sm) → df ≠ [] → a ≠ [] →
  (returned (main fs now) = Some ()
   ↔ first_without_details sm = None
     ∧ AnomalySummary.top_3_districts sm ≠ [])
  ∧ (footer_rendered (trace (main fs now)) = true
     ↔ returned (main fs now) = Some ())
  ∧ errors (trace (main fs now)) = []
  ∧ tabs_rendered (trace (main fs now)) = true
  ∧ invoked f_create_district_summary (trace (main fs now)) = true.
Proof.
  intros Hload Hdf _.
  destruct (main_loaded fs now df a (Some sm) Hload) as [Ht Ho].
  destruct (render_dashboard_loaded df a sm load_austin_districts now)
    as [Hdt Hdo]. cbn zeta in Hdt, Hdo.
  rewrite render_tab1_outcome in Hdt, Hdo.
  destruct (create_district_summary df) as [|r s] eqn:Es;
    [by apply summary_nil_inv in Es|].
  rewrite <- Es in *. clear Es r s.
  set (s := create_district_summary df) in *.
  pose proof (render_tab1_in_tabs df s load_austin_districts) as H1.
  pose proof (render_tab2_in_tabs a sm (hotspot_districts s)) as H2.
  apply in_tabs_quiet in H1 as (He1 & Hf1 & Ht1).
  apply in_tabs_quiet in H2 as (He2 & Hf2 & Ht2).
  pose proof (render_tab2_outcome a sm (hotspot_districts s)) as Ho2.
  unfold returned. rewrite Ho, Hdo, Ht, Hdt.
  rewrite !errors_app, !footer_rendered_app, !tabs_rendered_app, !invoked_app.
  rewrite He1, He2, Hf1, Hf2.
  destruct (snd (render_tab2 a sm (hotspot_districts s))) as [e|[]] eqn:E2.
  - rewrite app_nil_r. split; [|by repeat split].
    split; [done|]. intros [Hnone Htop]. rewrite Hnone in Ho2.
    by destruct (AnomalySummary.top_3_districts sm).
  - split; [|by repeat split].
    split; [|done]. intros _.
    destruct (first_without_details sm); [done|].
    by destruct (AnomalySummary.top_3_districts sm).
Qed.

(** X14: with an empty call table the run does not complete: it stops at
    line 182 of the first tab, before any metric tile; the second tab gets
    no content and the footer is not rendered. *)
Theorem main_empty_table (fs : filesystem) (now : string)
    (a : anomaly_table) (sm : option AnomalySummary.t) :
  try_load fs = inr ([], a, sm) →
  returned (main fs now) = None
  ∧ snd (main fs now) = inl KeyErrorColumns
  ∧ metrics (trace (main fs now)) = []
  ∧ tab_content tab2 (trace (main fs now)) = false
  ∧ footer_rendered (trace (main fs now)) = false.
Proof.
  intros Hload.
  destruct (main_loaded fs now [] a sm Hload) as [Ht Ho].
  unfold returned. rewrite Ho, Ht. by repeat split.
Qed.

Lemma expanders_app t1 t2 : expanders (t1 ++ t2) = expanders t1 ++ expanders t2.
Proof. apply omap_app. Qed.

Lemma render_district_expanders (sm : AnomalySummary.t) (i : nat) (d : Z) :
  expanders (trace (render_district sm i d)) = [(d, bool_decide (i = 0%nat))].
Proof.
  unfold render_district, details_of.
  destruct (AnomalySummary.detailed_analysis sm !! d) as [det|]; [|done].
  cbn. by destruct (frame_empty (Details.worst_hours det)).
Qed.

Lemma for_enumerate_expanders (sm : AnomalySummary.t) (i : nat) (l : list Z) :
  Forall (λ d, is_Some (AnomalySummary.detailed_analysis sm !! d)) l →
  expanders (trace (for_enumerate (render_district sm) i l))
  = imap (λ k d, (d, bool_decide (i + k = 0)%nat)) l.
Proof.
  intros Hall. revert i. induction Hall as [|d l [det Hd] Hall IH]; intros i;
    [done|].
  cbn [for_enumerate]. rewrite trace_bind, expanders_app.
  rewrite render_district_expanders, render_district_outcome, Hd, IH.
  rewrite imap_cons. cbn [app]. rewrite Nat.add_0_r. f_equal.
  apply imap_ext. intros k x _. cbn. by rewrite Nat.add_succ_r.
Qed.

(** X15: when every listed top district has an entry in the detailed
    analysis (and the anomaly table is not empty), the second tab opens one
    expander per listed district, in list order, and only the first starts
    expanded. *)
Theorem tab2_expanders (a : anomaly_table) (sm : AnomalySummary.t)
    (hs : list Z) :
  a ≠ [] →
  Forall (λ d, is_Some (AnomalySummary.detailed_analysis sm !! d))
    (AnomalySummary.top_3_districts sm) →
  expanders (trace (render_tab2 a sm hs))
  = imap (λ k d, (d, bool_decide (k = 0%nat)))
      (AnomalySummary.top_3_districts sm).
Proof.
  intros _ Hall. unfold render_tab2. rewrite !trace_bind. cbn [snd st log].
  rewrite !expanders_app, for_enumerate_expanders by done.
  rewrite for_enumerate_outcome.
  assert (list_find (λ d, AnomalySummary.detailed_analysis sm !! d = None)
            (AnomalySummary.top_3_districts sm) = None) as ->.
  { apply list_find_None. eapply Forall_impl; [done|].
    intros d [det ->]. done. }
  cbn [snd]. unfold details_of.
  destruct (AnomalySummary.top_3_districts sm) as [|top l]; [done|].
  apply Forall_cons in Hall as [[det ->] _]. cbn.
  by rewrite app_nil_r.
Qed.

(** ** The pivot in general *)

Lemma slice_nonempty_observed (a : anomaly_table) (d h : Z) :
  slice d h a ≠ [] →
  d ∈ Anomaly.district <$> a ∧ h ∈ Anomaly.hour <$> a.
Proof.
  unfold slice. intros Hne.
  destruct (filter _ a) as [|r g] eqn:E; [done|].
  assert (r ∈ filter (λ r, Anomaly.district r = d ∧ Anomaly.hour r = h) a)
    as Hr by (rewrite E; left).
  apply list_elem_of_filter in Hr as [[<- <-] Hr].
  split; by apply list_elem_of_fmap_2.
Qed.

(** X16: without any assumption on the anomaly table, the axes of the
    pivot are strictly ascending, and the cell of a (district, hour) pair
    that has rows holds the mean of the [delay_rate] of all the rows of the
    pair: duplicates are averaged, not rejected. *)
Theorem pivot_table_averages_slices (a : anomaly_table) :
  let p := heat_data (create_anomaly_heatmap a) in
  StronglySorted Z.lt (pivot_index p)
  ∧ StronglySorted Z.lt (pivot_columns p)
  ∧ (∀ d h, slice d h a ≠ [] →
       pivot_loc p d h = Some (mean (Anomaly.delay_rate <$> slice d h a)))
  ∧ (∀ d h r1 r2, slice d h a = [r1; r2] →
       ∃ v, pivot_loc p d h = Some v
            ∧ (v == (Anomaly.delay_rate r1 + Anomaly.delay_rate r2) / 2)%Q).
Proof.
  intros p. subst p. cbn [create_anomaly_heatmap heat_data].
  assert (∀ d h, slice d h a ≠ [] →
            pivot_loc (pivot_table a) d h
            = Some (mean (Anomaly.delay_rate <$> slice d h a))) as Hcell.
  { intros d h Hne. rewrite pivot_loc_table.
    rewrite decide_True by (by apply slice_nonempty_observed).
    unfold pivot_cell. by destruct (slice d h a). }
  split; [|split; [|split]].
  - apply StronglySorted_le_lt;
      [apply Sorted_sorted_distinct|apply NoDup_sorted_distinct].
  - apply StronglySorted_le_lt;
      [apply Sorted_sorted_distinct|apply NoDup_sorted_distinct].
  - done.
  - intros d h r1 r2 Hs. eexists. split.
    + apply Hcell. by rewrite Hs.
    + rewrite Hs. unfold mean. rewrite Qred_correct.
      cbn [fmap list_fmap Qsum foldr length]. field.
Qed.

(** ** Counts that agree across the page *)

Lemma nunique_sorted_distinct (l : list Z) :
  nunique l = Z.of_nat (length (merge_sort Z.le (remove_dups l))).
Proof. unfold nunique. by rewrite merge_sort_Permutation. Qed.

(** X17: the number of districts shown in the sidebar is the number of
    rows of the District Summary, of bars of the chart and of rows of the
    displayed table; the number of affected districts shown in the second
    tab is the number of rows of the heatmap. *)
Theorem district_counts_agree (df : call_table) (a : anomaly_table)
    (gdf : option unit) :
  let s := create_district_summary df in
  nunique (Call.council_district <$> df) = Z.of_nat (length s)
  ∧ length (bars (create_choropleth_map s gdf)) = length s
  ∧ length (display <$> sort_values_avg_response_min false s) = length s
  ∧ (a ≠ [] →
     nunique (Anomaly.district <$> a)
     = Z.of_nat (length (pivot_values (heat_data (create_anomaly_heatmap a))))).
Proof.
  intros s. subst s. split; [|split; [|split]].
  - rewrite nunique_sorted_distinct, create_district_summary_rows.
    by rewrite length_fmap.
  - by rewrite bars_choropleth, bars_bar_chart, length_fmap.
  - rewrite length_fmap. unfold sort_values_avg_response_min.
    by rewrite (merge_sort_Permutation (flip by_avg_response_min)).
  - intros _. rewrite nunique_sorted_distinct. cbn. by rewrite length_fmap.
Qed.

(** ** The guard of the second tab *)

Lemma invoked_heatmap_tab1 (df : call_table) (s : district_summary)
    (gdf : option unit) :
  invoked f_create_anomaly_heatmap (trace (render_tab1 df s gdf)) = false.
Proof.
  destruct s as [|r s]; [done|].
  rewrite render_tab1_trace by done. rewrite !invoked_app.
  destruct (render_key_findings_cases (r :: s))
    as [[_ ->]|(sl & fa & _ & _ & ->)]; done.
Qed.

(** The run of the page when the guard of the second tab fires. *)
Lemma render_dashboard_guard (df : call_table) (a : option anomaly_table)
    (sm : option AnomalySummary.t) (gdf : option unit) (now : string) :
  a = None ∨ sm = None → df ≠ [] →
  let r := render_dashboard df a sm gdf now in
  returned r = Some ()
  ∧ (∃ before,
       trace r
       = before
           ++ trace (render_tab1 df (create_district_summary df) gdf)
           ++ [emit (in_tab tab2) (header "ML-Based Anomaly Detection");
               emit (in_tab tab2)
                 (markdown (Static
                    "*DBSCAN clustering identifies unusual operational patterns*"));
               emit (in_tab tab2) (error anomaly_data_unavailable)])
  ∧ snd (render_tab1 df (create_district_summary df) gdf) = inr ()
  ∧ tab_content tab1 (trace r) = true
  ∧ errors (trace r) = [anomaly_data_unavailable]
  ∧ last (trace r) = Some (emit (in_tab tab2) (error anomaly_data_unavailable))
  ∧ invoked f_create_anomaly_heatmap (trace r) = false
  ∧ footer_rendered (trace r) = false.
Proof.
  intros Hnone Hdf r.
  set (s := create_district_summary df).
  assert (s ≠ []) as Hs.
  { subst s. intros Es. by apply summary_nil_inv in Es. }
  assert (snd (render_tab1 df s gdf) = inr ()) as Ho1.
  { rewrite render_tab1_outcome. by destruct s. }
  assert (tab_content tab1 (trace (render_tab1 df s gdf)) = true) as Hc1.
  { by rewrite render_tab1_trace by done. }
  pose proof (render_tab1_in_tabs df s gdf) as H1.
  apply in_tabs_quiet in H1 as (He1 & Hf1 & _).
  pose proof (invoked_heatmap_tab1 df s gdf) as Hi1.
  assert (trace r
          = [emit sidebar (header "Dashboard Controls");
             emit sidebar (info (DataSummary (Z.of_nat (length df))
                                   (nunique (Call.council_district <$> df))));
             invoke f_create_district_summary;
             tabs ["Percentile-Based Hotspots"%string;
                   "ML Anomaly Detection"%string]]
            ++ trace (render_tab1 df s gdf)
            ++ [emit (in_tab tab2) (header "ML-Based Anomaly Detection");
                emit (in_tab tab2)
                  (markdown (Static
                     "*DBSCAN clustering identifies unusual operational patterns*"));
                emit (in_tab tab2) (error anomaly_data_unavailable)]
          ∧ snd r = inr ()) as [Ht Ho].
  { subst r. unfold render_dashboard. fold s.
    rewrite !trace_bind, !outcome_bind. cbn [snd st log]. rewrite Ho1.
    destruct Hnone as [-> | ->]; [|destruct a]; done. }
  split; [unfold returned; by rewrite Ho|].
  split; [by eexists|]. split; [done|].
  rewrite Ht.
  rewrite !errors_app, !footer_rendered_app, !invoked_app, !tab_content_app,
    He1, Hf1, Hi1, Hc1.
  split; [done|]. split; [done|]. split; [|done].
  rewrite app_assoc.
  change [emit (in_tab tab2) (header "ML-Based Anomaly Detection");
          emit (in_tab tab2)
            (markdown (Static
               "*DBSCAN clustering identifies unusual operational patterns*"));
          emit (in_tab tab2) (error anomaly_data_unavailable)]
    with ([emit (in_tab tab2) (header "ML-Based Anomaly Detection");
           emit (in_tab tab2)
             (markdown (Static
                "*DBSCAN clustering identifies unusual operational patterns*"))]
          ++ [emit (in_tab tab2) (error anomaly_data_unavailable)]).
  rewrite app_assoc. apply last_snoc.
Qed.

(** X18: when [main] holds a non-empty call table but the anomaly table
    or the anomaly summary is [None], the first tab is rendered in full (its
    whole trace is part of the run, it completes, and the tab has content),
    the second tab gets its header and one error indication, the heatmap is
    not built, and [main] returns there: the footer is not rendered. *)
Theorem anomaly_guard_returns (df : call_table) (a : option anomaly_table)
    (sm : option AnomalySummary.t) (gdf : option unit) (now : string) :
  a = None ∨ sm = None → df ≠ [] →
  let r := render_dashboard df a sm gdf now in
  returned r = Some ()
  ∧ (∃ before,
       trace r
       = before
           ++ trace (render_tab1 df (create_district_summary df) gdf)
           ++ [emit (in_tab tab2) (header "ML-Based Anomaly Detection");
               emit (in_tab tab2)
                 (markdown (Static
                    "*DBSCAN clustering identifies unusual operational patterns*"));
               emit (in_tab tab2) (error anomaly_data_unavailable)])
  ∧ snd (render_tab1 df (create_district_summary df) gdf) = inr ()
  ∧ tab_content tab1 (trace r) = true
  ∧ errors (trace r) = [anomaly_data_unavailable]
  ∧ last (trace r) = Some (emit (in_tab tab2) (error anomaly_data_unavailable))
  ∧ invoked f_create_anomaly_heatmap (trace r) = false
  ∧ footer_rendered (trace r) = false.
Proof. apply render_dashboard_guard. Qed.

Lemma try_load_holds (fs : filesystem) df a sm :
  processed_csv fs = Holds df → dbscan_anomalies_csv fs = Holds a →
  anomaly_summary_pkl fs = Holds sm →
  try_load fs = inr (df, a, sm).
Proof.
  intros Hc Ha Hs. unfold try_load, extract_if_needed.
  rewrite Hc. cbn [exists_path negb andb]. rewrite andb_false_r. cbn.
  by rewrite Hc, Ha, Hs.
Qed.

(** X19: when the two CSV files load, the call table is not empty and the
    pickle holds [None], the loader emits no message and [main] reaches the
    guard of the second tab: the tabs are created, the first tab is filled,
    the only error indication is the one of the second tab and it is the last
    thing emitted; [main] returns there and the footer is not rendered. *)
Theorem main_pickled_none (fs : filesystem) (now : string) (df : call_table)
    (a : anomaly_table) :
  processed_csv fs = Holds df → dbscan_anomalies_csv fs = Holds a →
  anomaly_summary_pkl fs = Holds None → df ≠ [] →
  returned (load_data fs) = Some (Some df, Some a, None)
  ∧ returned (main fs now) = Some ()
  ∧ errors (trace (main fs now)) = [anomaly_data_unavailable]
  ∧ tabs_rendered (trace (main fs now)) = true
  ∧ tab_content tab1 (trace (main fs now)) = true
  ∧ last (trace (main fs now))
    = Some (emit (in_tab tab2) (error anomaly_data_unavailable))
  ∧ invoked f_create_anomaly_heatmap (trace (main fs now)) = false
  ∧ footer_rendered (trace (main fs now)) = false.
Proof.
  intros Hc Ha Hs Hdf.
  pose proof (try_load_holds fs df a None Hc Ha Hs) as Hload.
  destruct (main_loaded fs now df a None Hload) as [Ht Ho].
  destruct (render_dashboard_guard df (Some a) None load_austin_districts now
              ltac:(by right) Hdf)
    as (Hret & _ & _ & Hc1 & Herr & Hlast & Hinv & Hfoot).
  split; [unfold returned, load_data; by rewrite Hload|].
  split; [unfold returned in *; by rewrite Ho|].
  rewrite Ht, !app_assoc.
  rewrite errors_app, tabs_rendered_app, tab_content_app, invoked_app,
    footer_rendered_app, last_app, Herr, Hc1, Hlast, Hinv, Hfoot.
  split; [done|]. split; [|split; [apply orb_true_r|done]].
  apply orb_true_iff. right.
  unfold render_dashboard. rewrite !trace_bind. cbn [snd st log trace fst].
  done.
Qed.

(** ** The further properties at concrete inputs *)

Lemma load_data_ignores_archive_witness :
  load_data unreadable_archive_files = load_data all_files.
Proof. apply (load_data_ignores_archive all_files Unreadable). reflexivity. Defined.

Lemma load_data_from_archive_witness :
  load_data archive_files
  = ([], inr (Some three_calls, Some two_anomalies, Some full_summary)).
Proof.
  apply (proj1 (load_data_from_archive archive_files eq_refl)); reflexivity.
Defined.

Lemma ten_calls_summary_nonempty : create_district_summary ten_calls ≠ [].
Proof. intros H. vm_compute in H. discriminate H. Defined.

Lemma key_findings_extremes_witness :
  ∃ (i j : nat) (slowest fastest : Summary.t),
    create_district_summary ten_calls !! i = Some slowest
    ∧ create_district_summary ten_calls !! j = Some fastest
    ∧ render_key_findings (create_district_summary ten_calls)
      = ([emit (in_column tab1 2) (subheader "Key Findings");
          emit (in_column tab1 2)
            (markdown
               (KeyFindings (narrate slowest) (narrate fastest)
                  (hotspot_districts (create_district_summary ten_calls))
                  (Qred (Summary.avg_response_min slowest
                         - Summary.avg_response_min fastest))))],
         inr ())
    ∧ (∀ r, r ∈ create_district_summary ten_calls →
         (Summary.avg_response_min r <= Summary.avg_response_min slowest)%Q)
    ∧ (∀ k r, (k < i)%nat → create_district_summary ten_calls !! k = Some r →
         (Summary.avg_response_min r < Summary.avg_response_min slowest)%Q)
    ∧ (∀ r, r ∈ create_district_summary ten_calls →
         (Summary.avg_response_min fastest <= Summary.avg_response_min r)%Q)
    ∧ (∀ k r, (k < j)%nat → create_district_summary ten_calls !! k = Some r →
         (Summary.avg_response_min fastest < Summary.avg_response_min r)%Q)
    ∧ (0 <= Qred (Summary.avg_response_min slowest
                  - Summary.avg_response_min fastest))%Q.
Proof.
  apply (key_findings_extremes (create_district_summary ten_calls)).
  apply ten_calls_summary_nonempty.
Defined.

Lemma key_findings_tie_break_witness :
  ∃ slowest fastest : Summary.t,
    slowest ∈ create_district_summary ten_calls
    ∧ fastest ∈ create_district_summary ten_calls
    ∧ trace (render_key_findings (create_district_summary ten_calls))
      = [emit (in_column tab1 2) (subheader "Key Findings");
         emit (in_column tab1 2)
           (markdown
              (KeyFindings (narrate slowest) (narrate fastest)
                 (hotspot_districts (create_district_summary ten_calls))
                 (Qred (Summary.avg_response_min slowest
                        - Summary.avg_response_min fastest))))]
    ∧ (∀ r, r ∈ create_district_summary ten_calls →
         (Summary.avg_response_min r <= Summary.avg_response_min slowest)%Q)
    ∧ (∀ r, r ∈ create_district_summary ten_calls →
         (Summary.avg_response_min fastest <= Summary.avg_response_min r)%Q)
    ∧ (∀ r, r ∈ create_district_summary ten_calls →
         (Summary.avg_response_min r == Summary.avg_response_min slowest)%Q →
         Summary.council_district slowest ≤ Summary.council_district r)
    ∧ (∀ r, r ∈ create_district_summary ten_calls →
         (Summary.avg_response_min r == Summary.avg_response_min fastest)%Q →
         Summary.council_district fastest ≤ Summary.council_district r).
Proof. apply (key_findings_tie_break ten_calls). discriminate. Defined.

Lemma main_completes_iff_witness :
  returned (main complete_files "now") = Some ()
  ∧ footer_rendered (trace (main complete_files "now")) = true
  ∧ errors (trace (main complete_files "now")) = [].
Proof.
  pose proof (main_completes_iff complete_files "now" ten_calls two_anomalies
                full_summary eq_refl ltac:(discriminate) ltac:(discriminate))
    as (Hret & Hfoot & Herr & _).
  assert (returned (main complete_files "now") = Some ()) as Hr.
  { apply Hret. split; [reflexivity|discriminate]. }
  split; [exact Hr|]. split; [by apply Hfoot|exact Herr].
Defined.

Lemma main_empty_table_witness :
  returned (main empty_table_files "now") = None
  ∧ snd (main empty_table_files "now") = inl KeyErrorColumns
  ∧ metrics (trace (main empty_table_files "now")) = []
  ∧ tab_content tab2 (trace (main empty_table_files "now")) = false
  ∧ footer_rendered (trace (main empty_table_files "now")) = false.
Proof.
  apply (main_empty_table empty_table_files "now" two_anomalies
           (Some full_summary)).
  reflexivity.
Defined.

Lemma tab2_expanders_witness :
  expanders (trace (render_tab2 two_anomalies full_summary []))
  = [(2, true); (1, false); (3, false)].
Proof.
  etrans; [apply (tab2_expanders two_anomalies full_summary [])|reflexivity];
    [discriminate|].
  repeat (apply Forall_cons; split; [vm_compute; by eexists|]).
  apply Forall_nil_2.
Defined.

Lemma anomaly_guard_returns_witness :
  returned (render_dashboard one_call None None None "now") = Some ()
  ∧ (∃ before,
       trace (render_dashboard one_call None None None "now")
       = before
           ++ trace (render_tab1 one_call (create_district_summary one_call)
                       None)
           ++ [emit (in_tab tab2) (header "ML-Based Anomaly Detection");
               emit (in_tab tab2)
                 (markdown (Static
                    "*DBSCAN clustering identifies unusual operational patterns*"));
               emit (in_tab tab2) (error anomaly_data_unavailable)])
  ∧ snd (render_tab1 one_call (create_district_summary one_call) None)
    = inr ()
  ∧ tab_content tab1 (trace (render_dashboard one_call None None None "now"))
    = true
  ∧ errors (trace (render_dashboard one_call None None None "now"))
    = [anomaly_data_unavailable]
  ∧ last (trace (render_dashboard one_call None None None "now"))
    = Some (emit (in_tab tab2) (error anomaly_data_unavailable))
  ∧ invoked f_create_anomaly_heatmap
      (trace (render_dashboard one_call None None None "now")) = false
  ∧ footer_rendered (trace (render_dashboard one_call None None None "now"))
    = false.
Proof.
  apply (anomaly_guard_returns one_call None None None "now").
  - by left.
  - discriminate.
Defined.

Lemma main_pickled_none_witness :
  returned (load_data pickled_none_files)
  = Some (Some three_calls, Some two_anomalies, None)
  ∧ returned (main pickled_none_files "now") = Some ()
  ∧ errors (trace (main pickled_none_files "now")) = [anomaly_data_unavailable]
  ∧ tabs_rendered (trace (main pickled_none_files "now")) = true
  ∧ tab_content tab1 (trace (main pickled_none_files "now")) = true
  ∧ last (trace (main pickled_none_files "now"))
    = Some (emit (in_tab tab2) (error anomaly_data_unavailable))
  ∧ invoked f_create_anomaly_heatmap (trace (main pickled_none_files "now"))
    = false
  ∧ footer_rendered (trace (main pickled_none_files "now")) = false.
Proof.
  apply (main_pickled_none pickled_none_files "now" three_calls two_anomalies);
    [reflexivity..|discriminate].
Defined.

Lemma tab2_outcome_witness :
  snd (render_tab2 two_anomalies full_summary []) = inr ()
  ∧ snd (render_tab2 two_anomalies some_summary []) = inl IndexError.
Proof.
  split.
  - etrans; [apply (proj1 (tab2_outcome two_anomalies full_summary []
                             ltac:(discriminate)))|reflexivity].
  - etrans; [apply (proj1 (tab2_outcome two_anomalies some_summary []
                             ltac:(discriminate)))|reflexivity].
Defined.
